(** * AppComponent: the view synchroniser of the todo application

    A shallow embedding of [src/app/app.component.ts].  The component is a
    single-threaded, event-driven object: every handler runs to completion,
    every call to the data facade ([DataHandlerService]) returns an
    Observable, and the callback given to [subscribe] runs later, when the
    facade answers.  The embedding keeps

    - the component's fields in a record ([AppComponent]);
    - the subscriptions that are still waiting for the facade in a list
      ([pending]), each with the request it made and the callback it will
      run (the callbacks of the source, one constructor per [subscribe]);
    - one step per event: a user action (a handler of the component) or one
      answer of the facade to one waiting subscription ([deliver]).

    The facade answers each request at most once, with a value or with an
    error, in any order. *)

From stdpp Require Import base option list gmap strings sorting.
From Stdlib Require Import ZArith Lia.

Local Open Scope Z_scope.

(** ** Data model *)

(** Modelled from the spec: [model/Category.ts] is not part of the sources;
    a category has an identity and a title.  [addr] is the identity of the
    JavaScript object: a [Map] with object keys compares keys by reference. *)
Module Category.
Record t := mk { addr : positive; id : Z; title : string }.
End Category.

(** Modelled from the spec: [model/Priority.ts] is not part of the sources. *)
Module Priority.
Record t := mk { id : Z; title : string }.
End Priority.

(** Modelled from the spec: [model/Task.ts] is not part of the sources; the
    component reads [id] and [category] only. *)
Module Task.
Record t := mk {
  id : Z;
  title : string;
  completed : bool;
  priority : option Priority.t;
  category : option Category.t   (* null or undefined: no category *)
}.
End Task.

(** The fields of the component.  A field declared without initialiser is
    [undefined] until first written: [None]. *)
Record AppComponent := mkApp {
  categoryMap : gmap positive Z;          (* Map<Category, number>, keyed by object *)
  tasks : option (list Task.t);
  categories : option (list Category.t);
  priorities : option (list Priority.t);
  totalTasksCountInCategory : option Z;
  completedCountInCategory : option Z;
  uncompletedCountInCategory : option Z;
  uncompletedTotalTasksCount : option Z;
  showStat : bool;
  selectedCategory : option Category.t;   (* null: the category "All" *)
  searchTaskText : string;
  searchCategoryText : string;
  priorityFilter : option Priority.t;
  statusFilter : option bool;
  menuOpened : bool;
  isMobile : bool;
  isTablet : bool
}.

(** Assignments to single fields. *)
Definition set_categoryMap (v : gmap positive Z) (a : AppComponent) : AppComponent :=
  mkApp v (tasks a) (categories a) (priorities a)
    (totalTasksCountInCategory a) (completedCountInCategory a)
    (uncompletedCountInCategory a) (uncompletedTotalTasksCount a) (showStat a)
    (selectedCategory a) (searchTaskText a) (searchCategoryText a)
    (priorityFilter a) (statusFilter a) (menuOpened a) (isMobile a) (isTablet a).

Definition set_tasks (v : option (list Task.t)) (a : AppComponent) : AppComponent :=
  mkApp (categoryMap a) v (categories a) (priorities a)
    (totalTasksCountInCategory a) (completedCountInCategory a)
    (uncompletedCountInCategory a) (uncompletedTotalTasksCount a) (showStat a)
    (selectedCategory a) (searchTaskText a) (searchCategoryText a)
    (priorityFilter a) (statusFilter a) (menuOpened a) (isMobile a) (isTablet a).

Definition set_categories (v : option (list Category.t)) (a : AppComponent) : AppComponent :=
  mkApp (categoryMap a) (tasks a) v (priorities a)
    (totalTasksCountInCategory a) (completedCountInCategory a)
    (uncompletedCountInCategory a) (uncompletedTotalTasksCount a) (showStat a)
    (selectedCategory a) (searchTaskText a) (searchCategoryText a)
    (priorityFilter a) (statusFilter a) (menuOpened a) (isMobile a) (isTablet a).

Definition set_totalTasksCountInCategory (v : option Z) (a : AppComponent) : AppComponent :=
  mkApp (categoryMap a) (tasks a) (categories a) (priorities a)
    v (completedCountInCategory a)
    (uncompletedCountInCategory a) (uncompletedTotalTasksCount a) (showStat a)
    (selectedCategory a) (searchTaskText a) (searchCategoryText a)
    (priorityFilter a) (statusFilter a) (menuOpened a) (isMobile a) (isTablet a).

Definition set_completedCountInCategory (v : option Z) (a : AppComponent) : AppComponent :=
  mkApp (categoryMap a) (tasks a) (categories a) (priorities a)
    (totalTasksCountInCategory a) v
    (uncompletedCountInCategory a) (uncompletedTotalTasksCount a) (showStat a)
    (selectedCategory a) (searchTaskText a) (searchCategoryText a)
    (priorityFilter a) (statusFilter a) (menuOpened a) (isMobile a) (isTablet a).

Definition set_uncompletedCountInCategory (v : option Z) (a : AppComponent) : AppComponent :=
  mkApp (categoryMap a) (tasks a) (categories a) (priorities a)
    (totalTasksCountInCategory a) (completedCountInCategory a)
    v (uncompletedTotalTasksCount a) (showStat a)
    (selectedCategory a) (searchTaskText a) (searchCategoryText a)
    (priorityFilter a) (statusFilter a) (menuOpened a) (isMobile a) (isTablet a).

Definition set_uncompletedTotalTasksCount (v : option Z) (a : AppComponent) : AppComponent :=
  mkApp (categoryMap a) (tasks a) (categories a) (priorities a)
    (totalTasksCountInCategory a) (completedCountInCategory a)
    (uncompletedCountInCategory a) v (showStat a)
    (selectedCategory a) (searchTaskText a) (searchCategoryText a)
    (priorityFilter a) (statusFilter a) (menuOpened a) (isMobile a) (isTablet a).

Definition set_showStat (v : bool) (a : AppComponent) : AppComponent :=
  mkApp (categoryMap a) (tasks a) (categories a) (priorities a)
    (totalTasksCountInCategory a) (completedCountInCategory a)
    (uncompletedCountInCategory a) (uncompletedTotalTasksCount a) v
    (selectedCategory a) (searchTaskText a) (searchCategoryText a)
    (priorityFilter a) (statusFilter a) (menuOpened a) (isMobile a) (isTablet a).

Definition set_selectedCategory (v : option Category.t) (a : AppComponent) : AppComponent :=
  mkApp (categoryMap a) (tasks a) (categories a) (priorities a)
    (totalTasksCountInCategory a) (completedCountInCategory a)
    (uncompletedCountInCategory a) (uncompletedTotalTasksCount a) (showStat a)
    v (searchTaskText a) (searchCategoryText a)
    (priorityFilter a) (statusFilter a) (menuOpened a) (isMobile a) (isTablet a).

Definition set_searchTaskText (v : string) (a : AppComponent) : AppComponent :=
  mkApp (categoryMap a) (tasks a) (categories a) (priorities a)
    (totalTasksCountInCategory a) (completedCountInCategory a)
    (uncompletedCountInCategory a) (uncompletedTotalTasksCount a) (showStat a)
    (selectedCategory a) v (searchCategoryText a)
    (priorityFilter a) (statusFilter a) (menuOpened a) (isMobile a) (isTablet a).

Definition set_searchCategoryText (v : string) (a : AppComponent) : AppComponent :=
  mkApp (categoryMap a) (tasks a) (categories a) (priorities a)
    (totalTasksCountInCategory a) (completedCountInCategory a)
    (uncompletedCountInCategory a) (uncompletedTotalTasksCount a) (showStat a)
    (selectedCategory a) (searchTaskText a) v
    (priorityFilter a) (statusFilter a) (menuOpened a) (isMobile a) (isTablet a).

Definition set_priorityFilter (v : option Priority.t) (a : AppComponent) : AppComponent :=
  mkApp (categoryMap a) (tasks a) (categories a) (priorities a)
    (totalTasksCountInCategory a) (completedCountInCategory a)
    (uncompletedCountInCategory a) (uncompletedTotalTasksCount a) (showStat a)
    (selectedCategory a) (searchTaskText a) (searchCategoryText a)
    v (statusFilter a) (menuOpened a) (isMobile a) (isTablet a).

Definition set_statusFilter (v : option bool) (a : AppComponent) : AppComponent :=
  mkApp (categoryMap a) (tasks a) (categories a) (priorities a)
    (totalTasksCountInCategory a) (completedCountInCategory a)
    (uncompletedCountInCategory a) (uncompletedTotalTasksCount a) (showStat a)
    (selectedCategory a) (searchTaskText a) (searchCategoryText a)
    (priorityFilter a) v (menuOpened a) (isMobile a) (isTablet a).

Definition set_menuOpened (v : bool) (a : AppComponent) : AppComponent :=
  mkApp (categoryMap a) (tasks a) (categories a) (priorities a)
    (totalTasksCountInCategory a) (completedCountInCategory a)
    (uncompletedCountInCategory a) (uncompletedTotalTasksCount a) (showStat a)
    (selectedCategory a) (searchTaskText a) (searchCategoryText a)
    (priorityFilter a) (statusFilter a) v (isMobile a) (isTablet a).

(** ** The facade, seen from the component *)

(** The operations of [DataHandlerService] that the component calls. *)
Inductive Request :=
| searchCategories (title : string)
| addCategory (title : string)
| updateCategory (c : Category.t)
| deleteCategory (id : Z)
| searchTasks (c : option Category.t) (text : string)
    (status : option bool) (priority : option Priority.t)
| addTask (t : Task.t)
| updateTask (t : Task.t)
| deleteTask (id : Z)
| getTotalCountInCategory (c : option Category.t)
| getCompletedCountInCategory (c : option Category.t)
| getUncompletedCountInCategory (c : option Category.t)
| getUncompletedTotalCount.

(** What an Observable of the facade emits. *)
Inductive Value :=
| VUnit
| VCount (n : Z)
| VCategory (c : Category.t)
| VCategories (l : list Category.t)
| VTask (t : Task.t)
| VTasks (l : list Task.t).

(** An answer of the facade: a [next] notification or an [error]. *)
Inductive Reply :=
| Next (v : Value)
| Error.

(** The callbacks handed to [subscribe], one per call site. *)
Inductive Subscriber :=
| AfterAddCategory                 (* onAddCategory *)
| SetCount (cat : Category.t)      (* fillCategories, forEach body *)
| AfterSearchCategory              (* onSearchCategory *)
| AfterDeleteCategory              (* onDeleteCategory *)
| AfterUpdateCategory              (* onUpdateCategory *)
| AfterUpdateTask                  (* onUpdateTask *)
| DeleteTaskThenCount              (* onDeleteTask, the concatMap projection *)
| AfterDeleteTask (task : Task.t)  (* onDeleteTask, map and subscribe *)
| AddTaskThenCount                 (* onAddTask, the concatMap projection *)
| AfterAddTask (task : Task.t)     (* onAddTask, map and subscribe *)
| SetTasks.                        (* updateTasks *)

(** A subscription that waits for the facade: a single request with its
    callback, or the [zip] of [updateStat], which buffers one value per
    source until every source has emitted. *)
Inductive Pending :=
| Single (r : Request) (k : Subscriber)
| Zip (sources : list (Request * option Z)).

Record Sys := mkSys {
  app : AppComponent;
  pending : list Pending
}.

Definition upd (f : AppComponent -> AppComponent) (s : Sys) : Sys :=
  mkSys (f (app s)) (pending s).

(** [observable.subscribe(callback)]: the request is issued and waits. *)
Definition subscribe (r : Request) (k : Subscriber) (s : Sys) : Sys :=
  mkSys (app s) (pending s ++ [Single r k]).

(** ** [Array.prototype.sort] *)

(** [array.sort(cmp)] is a stable sort (ECMAScript 2019).  For a consistent
    comparator every stable sort returns the same array, so the insertion
    sort below, which puts an element before the elements that compare
    equal to it and came after it, stands for it. *)
Section ArraySort.
Context {A : Type} (cmp : A -> A -> Z).

Fixpoint sort_insert (x : A) (l : list A) : list A :=
  match l with
  | [] => [x]
  | y :: l' => if cmp x y <=? 0 then x :: y :: l' else y :: sort_insert x l'
  end.

Definition Array_sort (l : list A) : list A := foldr sort_insert [] l.
End ArraySort.

(** ** [zip] *)

(** The values buffered by a [zip], in source order, once every source has
    emitted. *)
Fixpoint zipReady (sources : list (Request * option Z)) : option (list Z) :=
  match sources with
  | [] => Some []
  | (_, None) :: _ => None
  | (_, Some v) :: rest =>
      match zipReady rest with
      | Some vs => Some (v :: vs)
      | None => None
      end
  end.

(** ** The handlers of the component *)

Section Component.
(** [String.prototype.localeCompare] of the host: negative, zero or
    positive. *)
Variable localeCompare : string -> string -> Z.

(** [(a, b) => a.title.localeCompare(b.title)] *)
Definition compareTitle (a b : Category.t) : Z :=
  localeCompare (Category.title a) (Category.title b).

Definition onAddCategory (title : string) (s : Sys) : Sys :=
  subscribe (addCategory title) AfterAddCategory s.

(** [None]: [this.categories] is undefined and [sort] raises a TypeError. *)
Definition fillCategories (s : Sys) : option Sys :=
  let s1 := upd (set_categoryMap ∅) s in
  match categories (app s1) with
  | None => None
  | Some cs =>
      let sorted := Array_sort compareTitle cs in
      let s2 := upd (set_categories (Some sorted)) s1 in
      Some (foldl (fun acc cat =>
                     subscribe (getUncompletedCountInCategory (Some cat))
                               (SetCount cat) acc)
                  s2 sorted)
  end.

Definition onSearchCategory (title : string) (s : Sys) : Sys :=
  subscribe (searchCategories title) AfterSearchCategory
    (upd (set_searchCategoryText title) s).

Definition updateTasks (s : Sys) : Sys :=
  subscribe
    (searchTasks (selectedCategory (app s)) (searchTaskText (app s))
                 (statusFilter (app s)) (priorityFilter (app s)))
    SetTasks s.

Definition updateStat (s : Sys) : Sys :=
  mkSys (app s)
    (pending s ++
     [Zip [(getTotalCountInCategory (selectedCategory (app s)), None);
           (getCompletedCountInCategory (selectedCategory (app s)), None);
           (getUncompletedCountInCategory (selectedCategory (app s)), None);
           (getUncompletedTotalCount, None)]]).

Definition updateTasksAndStat (s : Sys) : Sys :=
  updateStat (updateTasks s).

Definition onSelectCategory (category : option Category.t) (s : Sys) : Sys :=
  let s1 := upd (set_selectedCategory category) s in
  let s2 := updateTasksAndStat s1 in
  if isMobile (app s2) then upd (set_menuOpened false) s2 else s2.

Definition onDeleteCategory (category : Category.t) (s : Sys) : Sys :=
  subscribe (deleteCategory (Category.id category)) AfterDeleteCategory s.

Definition onUpdateCategory (category : Category.t) (s : Sys) : Sys :=
  subscribe (updateCategory category) AfterUpdateCategory s.

Definition onUpdateTask (task : Task.t) (s : Sys) : Sys :=
  subscribe (updateTask task) AfterUpdateTask s.

Definition onDeleteTask (task : Task.t) (s : Sys) : Sys :=
  subscribe (deleteTask (Task.id task)) DeleteTaskThenCount s.

Definition onSearchTasks (searchString : string) (s : Sys) : Sys :=
  updateTasks (upd (set_searchTaskText searchString) s).

Definition onFilterTasksByStatus (status : option bool) (s : Sys) : Sys :=
  updateTasks (upd (set_statusFilter status) s).

Definition onFilterTasksByPriority (priority : option Priority.t) (s : Sys) : Sys :=
  updateTasks (upd (set_priorityFilter priority) s).

Definition onAddTask (task : Task.t) (s : Sys) : Sys :=
  subscribe (addTask task) AddTaskThenCount s.

Definition toggleStat (b : bool) (s : Sys) : Sys := upd (set_showStat b) s.

Definition onClosedMenu (s : Sys) : Sys := upd (set_menuOpened false) s.

Definition toggleMenu (s : Sys) : Sys :=
  upd (fun a => set_menuOpened (negb (menuOpened a)) a) s.

(** [this.categoryMap.set(cat, count)] *)
Definition categoryMap_set (cat : Category.t) (count : Z) (s : Sys) : Sys :=
  upd (fun a => set_categoryMap (<[Category.addr cat := count]> (categoryMap a)) a) s.

(** [this.categoryMap.delete(cat)] *)
Definition categoryMap_delete (cat : Category.t) (s : Sys) : Sys :=
  upd (fun a => set_categoryMap (delete (Category.addr cat) (categoryMap a)) a) s.

(** The subscriber of [updateStat]: four assignments from the zipped
    array; [array[i]] of a shorter array is undefined. *)
Definition publishStat (array : list Z) (a : AppComponent) : AppComponent :=
  set_uncompletedTotalTasksCount (array !! 3%nat)
    (set_uncompletedCountInCategory (array !! 2%nat)
       (set_completedCountInCategory (array !! 1%nat)
          (set_totalTasksCountInCategory (array !! 0%nat) a))).

(** The subscriber of [onDeleteTask] and of [onAddTask] (the two bodies are
    the same): a point update when the task has a category, then
    [updateTasksAndStat]. *)
Definition afterTaskMutation (t : Task.t) (count : Z) (s : Sys) : Sys :=
  let s1 := match Task.category t with
            | Some c => categoryMap_set c count s
            | None => s
            end in
  updateTasksAndStat s1.

(** A callback runs on the value its Observable emitted.  [None]: the
    callback raised, or the value is not of the type the callback's
    signature takes (excluded by the facade's types). *)
Definition run (k : Subscriber) (v : Value) (s : Sys) : option Sys :=
  match k, v with
  | AfterAddCategory, _ => fillCategories s
  | SetCount cat, VCount count => Some (categoryMap_set cat count s)
  | AfterSearchCategory, VCategories cs =>
      fillCategories (upd (set_categories (Some cs)) s)
  | AfterDeleteCategory, VCategory cat =>
      let s1 := upd (set_selectedCategory None) s in
      let s2 := categoryMap_delete cat s1 in
      let s3 := onSearchCategory (searchCategoryText (app s2)) s2 in
      Some (updateTasks s3)
  | AfterUpdateCategory, _ =>
      Some (onSearchCategory (searchCategoryText (app s)) s)
  | AfterUpdateTask, _ =>
      match fillCategories s with
      | Some s1 => Some (updateTasksAndStat s1)
      | None => None
      end
  | DeleteTaskThenCount, VTask task =>
      Some (subscribe (getUncompletedCountInCategory (Task.category task))
                      (AfterDeleteTask task) s)
  | AfterDeleteTask t, VCount count => Some (afterTaskMutation t count s)
  | AddTaskThenCount, VTask task =>
      Some (subscribe (getUncompletedCountInCategory (Task.category task))
                      (AfterAddTask task) s)
  | AfterAddTask t, VCount count => Some (afterTaskMutation t count s)
  | SetTasks, VTasks l => Some (upd (set_tasks (Some l)) s)
  | _, _ => None
  end.

(** The subscription at position [i] is over: it leaves the waiting list. *)
Definition finish (i : nat) (s : Sys) : Sys :=
  mkSys (app s) (delete i (pending s)).

(** The facade answers source [k] of the subscription at position [i].
    - A single request: on [error] nothing runs (no [subscribe] of the
      component passes an error callback) and the subscription ends; on
      [next] the callback runs.
    - A [zip]: an [error] of any source ends the zip without emission; a
      value is buffered, and when every source has a value the subscriber
      runs on the array of the four values.
    [None]: there is no such waiting source, or the callback raised. *)
Definition deliver (i k : nat) (r : Reply) (s : Sys) : option Sys :=
  match pending s !! i with
  | None => None
  | Some (Single _ sub) =>
      match k with
      | O => match r with
             | Error => Some (finish i s)
             | Next v => run sub v (finish i s)
             end
      | S _ => None
      end
  | Some (Zip sources) =>
      match sources !! k with
      | Some (q, None) =>
          match r with
          | Error => Some (finish i s)
          | Next (VCount n) =>
              let sources' := <[k := (q, Some n)]> sources in
              match zipReady sources' with
              | Some array => Some (upd (publishStat array) (finish i s))
              | None => Some (mkSys (app s) (<[i := Zip sources']> (pending s)))
              end
          | Next _ => None
          end
      | _ => None
      end
  end.

(** One event of the single-threaded event loop. *)
Inductive Event :=
| AddCategory (title : string)
| SearchCategory (title : string)
| SelectCategory (category : option Category.t)
| DeleteCategory (category : Category.t)
| UpdateCategory (category : Category.t)
| UpdateTask (task : Task.t)
| DeleteTask (task : Task.t)
| SearchTasks (searchString : string)
| FilterTasksByStatus (status : option bool)
| FilterTasksByPriority (priority : option Priority.t)
| AddTask (task : Task.t)
| ToggleStat (b : bool)
| ClosedMenu
| ToggleMenu
| Answer (i k : nat) (r : Reply).

Definition step (e : Event) (s : Sys) : option Sys :=
  match e with
  | AddCategory title => Some (onAddCategory title s)
  | SearchCategory title => Some (onSearchCategory title s)
  | SelectCategory c => Some (onSelectCategory c s)
  | DeleteCategory c => Some (onDeleteCategory c s)
  | UpdateCategory c => Some (onUpdateCategory c s)
  | UpdateTask t => Some (onUpdateTask t s)
  | DeleteTask t => Some (onDeleteTask t s)
  | SearchTasks x => Some (onSearchTasks x s)
  | FilterTasksByStatus b => Some (onFilterTasksByStatus b s)
  | FilterTasksByPriority p => Some (onFilterTasksByPriority p s)
  | AddTask t => Some (onAddTask t s)
  | ToggleStat b => Some (toggleStat b s)
  | ClosedMenu => Some (onClosedMenu s)
  | ToggleMenu => Some (toggleMenu s)
  | Answer i k r => deliver i k r s
  end.

(** A run of the event loop in which every callback returns; [None] as soon
    as an event is refused or a callback raises.  The runs that go on after
    a raise, with [ngOnInit] and the answers to its two subscriptions, are
    those of [liveSteps]. *)
Fixpoint steps (es : list Event) (s : Sys) : option Sys :=
  match es with
  | [] => Some s
  | e :: es' =>
      match step e s with
      | Some s' => steps es' s'
      | None => None
      end
  end.

End Component.

(** ** Observations used in the statements *)

(** The statistics block, read as one tuple. *)
Definition stat (a : AppComponent) : option Z * option Z * option Z * option Z :=
  (totalTasksCountInCategory a, completedCountInCategory a,
   uncompletedCountInCategory a, uncompletedTotalTasksCount a).

(** The four count queries of one [updateStat] for category [c], with the
    values buffered so far. *)
Definition statSources (c : option Category.t) (b0 b1 b2 b3 : option Z)
  : list (Request * option Z) :=
  [(getTotalCountInCategory c, b0);
   (getCompletedCountInCategory c, b1);
   (getUncompletedCountInCategory c, b2);
   (getUncompletedTotalCount, b3)].

(** Every waiting [zip] is one that [updateStat] subscribed. *)
Definition statZip (p : Pending) : Prop :=
  match p with
  | Single _ _ => True
  | Zip sources => exists c b0 b1 b2 b3, sources = statSources c b0 b1 b2 b3
  end.

Definition wf (s : Sys) : Prop := Forall statZip (pending s).

(** The request of a task-list refresh under the filters of [a]. *)
Definition refreshRequest (a : AppComponent) : Request :=
  searchTasks (selectedCategory a) (searchTaskText a) (statusFilter a) (priorityFilter a).

(** ** Sample data *)

(** Comparison by code units, a consistent comparator (the behaviour of
    [localeCompare] on ASCII titles of one case in an ordinal collation). *)
Definition codeUnitCompare (a b : string) : Z :=
  match String.compare a b with
  | Lt => -1
  | Eq => 0
  | Gt => 1
  end.

Definition work : Category.t := Category.mk 1 1 "Work".
Definition home : Category.t := Category.mk 2 2 "Home".
Definition home' : Category.t := Category.mk 3 3 "Home".

Definition milk (c : option Category.t) : Task.t :=
  Task.mk 7 "Buy milk" false None c.

(** The component as its constructor leaves it on a desktop, with the
    category list loaded and nothing in flight. *)
Definition desktop : Sys :=
  mkSys (mkApp ∅ None (Some [work; home; home']) None None None None None true
               None "" "" None None true false false)
        [].

(** ** The constructor *)

(** The four menu fields that [setMenuValues] writes. *)
Module Menu.
Record t := mk {
  menuOpened : bool;
  menuMode : string;
  menuPosition : string;
  showBackdrop : bool
}.
End Menu.

(** [setMenuValues], as a function of [this.isMobile]. *)
Definition setMenuValues (mobile : bool) : Menu.t :=
  if mobile then Menu.mk false "over" "left" true
  else Menu.mk true "push" "left" false.

(** The component after its constructor, for the two answers of the device
    detector: the field initialisers, [showStat = true ? !isMobile : false]
    and the menu flag of [setMenuValues]; nothing is in flight. *)
Definition constructor (mobile tablet : bool) : Sys :=
  mkSys (mkApp ∅ None None None None None None None
               (if true then negb mobile else false)
               None "" "" None None
               (Menu.menuOpened (setMenuValues mobile)) mobile tablet)
        [].

(** ** Further observations *)

Definition isAnswer (e : Event) : bool :=
  match e with
  | Answer _ _ _ => true
  | _ => false
  end.

(** The value has the type that the callback's parameter has in the source;
    the callbacks written [() => ...] take any value. *)
Definition accepts (sub : Subscriber) (v : Value) : bool :=
  match sub, v with
  | AfterAddCategory, _ => true
  | AfterUpdateCategory, _ => true
  | AfterUpdateTask, _ => true
  | SetCount _, VCount _ => true
  | AfterDeleteTask _, VCount _ => true
  | AfterAddTask _, VCount _ => true
  | AfterSearchCategory, VCategories _ => true
  | AfterDeleteCategory, VCategory _ => true
  | DeleteTaskThenCount, VTask _ => true
  | AddTaskThenCount, VTask _ => true
  | SetTasks, VTasks _ => true
  | _, _ => false
  end.

(** The category list, when there is one, is in ascending order of title. *)
Definition categoriesSorted (localeCompare : string -> string -> Z) (s : Sys) : Prop :=
  match categories (app s) with
  | Some cs =>
      StronglySorted
        (fun a b => localeCompare (Category.title a) (Category.title b) <= 0) cs
  | None => True
  end.

(** The four statistics fields are all undefined or all numbers. *)
Definition statAllOrNone (a : AppComponent) : Prop :=
  stat a = (None, None, None, None)
  \/ exists v0 v1 v2 v3, stat a = (Some v0, Some v1, Some v2, Some v3).

(** The fields that no answer of the facade writes. *)
Definition sameInputs (a a' : AppComponent) : Prop :=
  searchTaskText a' = searchTaskText a
  /\ searchCategoryText a' = searchCategoryText a
  /\ statusFilter a' = statusFilter a
  /\ priorityFilter a' = priorityFilter a
  /\ priorities a' = priorities a
  /\ showStat a' = showStat a
  /\ menuOpened a' = menuOpened a
  /\ isMobile a' = isMobile a
  /\ isTablet a' = isTablet a.

(** The count queries that [fillCategories] issues for a list. *)
Definition countRequests (l : list Category.t) : list Pending :=
  map (fun cat => Single (getUncompletedCountInCategory (Some cat)) (SetCount cat)) l.

(** The index after the counts [count cat] have been written for the
    categories of [l], in that order. *)
Definition writeCounts (count : Category.t -> Z) (l : list Category.t)
    (m : gmap positive Z) : gmap positive Z :=
  foldl (fun acc cat => <[Category.addr cat := count cat]> acc) m l.

(** ** The component from [ngOnInit] on *)

Definition set_priorities (v : option (list Priority.t)) (a : AppComponent) : AppComponent :=
  mkApp (categoryMap a) (tasks a) (categories a) v
    (totalTasksCountInCategory a) (completedCountInCategory a)
    (uncompletedCountInCategory a) (uncompletedTotalTasksCount a) (showStat a)
    (selectedCategory a) (searchTaskText a) (searchCategoryText a)
    (priorityFilter a) (statusFilter a) (menuOpened a) (isMobile a) (isTablet a).

(** What [fillCategories] leaves when it raises: [categoryMap.clear()] has
    run, the sort of the undefined list has raised, and nothing that follows
    the call runs. *)
Definition fillCategoriesRaised (s : Sys) : Sys := upd (set_categoryMap ∅) s.

(** The callbacks that call [fillCategories] on the list the component
    holds: those of [onAddCategory] and of [onUpdateTask]. *)
Definition rebuilds (sub : Subscriber) : bool :=
  match sub with
  | AfterAddCategory => true
  | AfterUpdateTask => true
  | _ => false
  end.

(** The component and the two subscriptions that [ngOnInit] makes once, to
    [getAllPriorities] and to [getAllCategories]; a flag says whether the
    subscription still waits. *)
Record Live := mkLive {
  core : Sys;
  prioritiesWait : bool;
  categoriesWait : bool
}.

(** An event of the component's life: an event of the loop above, or an
    answer to one of the two subscriptions of [ngOnInit] ([None]: an
    error). *)
Inductive LiveEvent :=
| Core (e : Event)
| PrioritiesAnswer (r : option (list Priority.t))
| CategoriesAnswer (r : option (list Category.t)).

(** The answer that stores the facade's category list as it comes. *)
Definition storesFacadeList (e : LiveEvent) : bool :=
  match e with
  | CategoriesAnswer (Some _) => true
  | _ => false
  end.

Section Life.
Variable localeCompare : string -> string -> Z.

(** [ngOnInit]: the two subscriptions, then [fillCategories] and
    [onSelectCategory(null)]; when [fillCategories] raises, the selection of
    "All" does not run.  The tour of [IntroService] is outside the
    component's state. *)
Definition ngOnInit (s : Sys) : Live :=
  mkLive (match fillCategories localeCompare s with
          | Some s1 => onSelectCategory None s1
          | None => fillCategoriesRaised s
          end)
         true true.

(** The state after an answer whose callback raises: the callback is one
    that rebuilds, the list is undefined, and the component goes on with the
    index cleared and that subscription over. *)
Definition raised (e : Event) (s : Sys) : option Sys :=
  match e with
  | Answer i O (Next _) =>
      match pending s !! i with
      | Some (Single _ sub) =>
          if rebuilds sub then
            match categories (app s) with
            | None => Some (fillCategoriesRaised (finish i s))
            | Some _ => None
            end
          else None
      | _ => None
      end
  | _ => None
  end.

(** One event in the life of the component.  The callbacks of [ngOnInit]
    are [priorities => this.priorities = priorities] and
    [categories => this.categories = categories]; the second stores the list
    without sorting it.  A callback that raises does not end the life of
    the component.  [None]: the event cannot happen (nothing waits for that
    answer). *)
Definition liveStep (e : LiveEvent) (c : Live) : option Live :=
  match e with
  | Core e' =>
      match step localeCompare e' (core c) with
      | Some s' => Some (mkLive s' (prioritiesWait c) (categoriesWait c))
      | None =>
          match raised e' (core c) with
          | Some s' => Some (mkLive s' (prioritiesWait c) (categoriesWait c))
          | None => None
          end
      end
  | PrioritiesAnswer r =>
      if prioritiesWait c then
        Some (mkLive (match r with
                      | Some l => upd (set_priorities (Some l)) (core c)
                      | None => core c
                      end)
                     false (categoriesWait c))
      else None
  | CategoriesAnswer r =>
      if categoriesWait c then
        Some (mkLive (match r with
                      | Some l => upd (set_categories (Some l)) (core c)
                      | None => core c
                      end)
                     (prioritiesWait c) false)
      else None
  end.

(** The life of the component over a list of events; it goes on after a
    callback that raised. *)
Fixpoint liveSteps (es : list LiveEvent) (c : Live) : option Live :=
  match es with
  | [] => Some c
  | e :: es' =>
      match liveStep e c with
      | Some c' => liveSteps es' c'
      | None => None
      end
  end.

End Life.

(** ** The waiting list *)

Section Answers.
Variable localeCompare : string -> string -> Z.

(** The answer to a single request runs its callback on the component
    without that subscription. *)
Lemma deliver_single (s : Sys) (i : nat) (q : Request) (sub : Subscriber) (r : Reply) :
  pending s !! i = Some (Single q sub) ->
  deliver localeCompare i 0 r s =
    match r with
    | Error => Some (finish i s)
    | Next v => run localeCompare sub v (finish i s)
    end.
Proof. intros H. unfold deliver. rewrite H. reflexivity. Qed.

Lemma deliver_zip_error (s : Sys) (i k : nat) sources (q : Request) :
  pending s !! i = Some (Zip sources) ->
  sources !! k = Some (q, None) ->
  deliver localeCompare i k Error s = Some (finish i s).
Proof. intros H1 H2. unfold deliver. rewrite H1, H2. reflexivity. Qed.

Lemma deliver_zip_value (s : Sys) (i k : nat) sources (q : Request) (n : Z) :
  pending s !! i = Some (Zip sources) ->
  sources !! k = Some (q, None) ->
  deliver localeCompare i k (Next (VCount n)) s =
    match zipReady (<[k := (q, Some n)]> sources) with
    | Some array => Some (upd (publishStat array) (finish i s))
    | None => Some (mkSys (app s) (<[i := Zip (<[k := (q, Some n)]> sources)]> (pending s)))
    end.
Proof. intros H1 H2. unfold deliver. rewrite H1, H2. reflexivity. Qed.

(** The handlers that refresh the task list and the statistics only add
    subscriptions. *)
Lemma updateTasks_eq (s : Sys) :
  updateTasks s = mkSys (app s) (pending s ++ [Single (refreshRequest (app s)) SetTasks]).
Proof. reflexivity. Qed.

Lemma updateStat_eq (s : Sys) :
  updateStat s =
    mkSys (app s)
      (pending s ++ [Zip (statSources (selectedCategory (app s)) None None None None)]).
Proof. reflexivity. Qed.

Lemma updateTasksAndStat_eq (s : Sys) :
  updateTasksAndStat s =
    mkSys (app s)
      (pending s ++
       [Single (refreshRequest (app s)) SetTasks;
        Zip (statSources (selectedCategory (app s)) None None None None)]).
Proof.
  unfold updateTasksAndStat. rewrite updateStat_eq, updateTasks_eq. simpl.
  by rewrite <- app_assoc.
Qed.

End Answers.

(** ** Filter changes *)

(** C1, as the code has it: selecting a category issues the task-list
    refresh and the statistics recompute for the new category; a change of
    the search text, of the status filter or of the priority filter issues
    the task-list refresh only, no statistics query; none of the four
    changes the Category Index. *)
Theorem C1_filter_change_issues (s : Sys) :
  (forall c,
      pending (onSelectCategory c s) =
        pending s ++
        [Single (searchTasks c (searchTaskText (app s)) (statusFilter (app s))
                             (priorityFilter (app s))) SetTasks;
         Zip (statSources c None None None None)]
      /\ categoryMap (app (onSelectCategory c s)) = categoryMap (app s))
  /\ (forall x,
      pending (onSearchTasks x s) =
        pending s ++
        [Single (searchTasks (selectedCategory (app s)) x (statusFilter (app s))
                             (priorityFilter (app s))) SetTasks]
      /\ categoryMap (app (onSearchTasks x s)) = categoryMap (app s))
  /\ (forall b,
      pending (onFilterTasksByStatus b s) =
        pending s ++
        [Single (searchTasks (selectedCategory (app s)) (searchTaskText (app s)) b
                             (priorityFilter (app s))) SetTasks]
      /\ categoryMap (app (onFilterTasksByStatus b s)) = categoryMap (app s))
  /\ (forall p,
      pending (onFilterTasksByPriority p s) =
        pending s ++
        [Single (searchTasks (selectedCategory (app s)) (searchTaskText (app s))
                             (statusFilter (app s)) p) SetTasks]
      /\ categoryMap (app (onFilterTasksByPriority p s)) = categoryMap (app s)).
Proof.
  split; [| split; [| split]].
  - intros c. unfold onSelectCategory. rewrite updateTasksAndStat_eq. simpl.
    destruct (isMobile (app s)); simpl; split; reflexivity.
  - intros x. split; reflexivity.
  - intros b. split; reflexivity.
  - intros p. split; reflexivity.
Qed.

(** C1 as stated fails: a change of the task search text issues the
    task-list refresh and nothing else; no statistics query waits. *)
Lemma C1_search_issues_no_statistics :
  pending (onSearchTasks "milk" desktop) =
    [Single (searchTasks None "milk" None None) SetTasks]
  /\ ~ (exists sources, Zip sources ∈ pending (onSearchTasks "milk" desktop)).
Proof.
  split; [reflexivity |].
  intros [sources H]. apply list_elem_of_singleton in H. discriminate H.
Qed.

(** C9: a change of the task search text, of the status filter or of the
    priority filter writes that one field and issues the task-list refresh;
    the answer to a task-list refresh, whenever it arrives, writes the task
    list.  The Category Index, the selected category, the other filter
    fields and the four statistics fields keep their values throughout. *)
Theorem C9_filter_change_frame (localeCompare : string -> string -> Z)
    (s t : Sys) (i : nat) (q : Request) (l : list Task.t)
    (Hwaits : pending t !! i = Some (Single q SetTasks)) :
  (forall x,
      app (onSearchTasks x s) = set_searchTaskText x (app s)
      /\ searchTaskText (app (onSearchTasks x s)) = x
      /\ statusFilter (app (onSearchTasks x s)) = statusFilter (app s)
      /\ priorityFilter (app (onSearchTasks x s)) = priorityFilter (app s)
      /\ tasks (app (onSearchTasks x s)) = tasks (app s)
      /\ categoryMap (app (onSearchTasks x s)) = categoryMap (app s)
      /\ selectedCategory (app (onSearchTasks x s)) = selectedCategory (app s)
      /\ stat (app (onSearchTasks x s)) = stat (app s))
  /\ (forall b,
      app (onFilterTasksByStatus b s) = set_statusFilter b (app s)
      /\ statusFilter (app (onFilterTasksByStatus b s)) = b
      /\ searchTaskText (app (onFilterTasksByStatus b s)) = searchTaskText (app s)
      /\ priorityFilter (app (onFilterTasksByStatus b s)) = priorityFilter (app s)
      /\ tasks (app (onFilterTasksByStatus b s)) = tasks (app s)
      /\ categoryMap (app (onFilterTasksByStatus b s)) = categoryMap (app s)
      /\ selectedCategory (app (onFilterTasksByStatus b s)) = selectedCategory (app s)
      /\ stat (app (onFilterTasksByStatus b s)) = stat (app s))
  /\ (forall p,
      app (onFilterTasksByPriority p s) = set_priorityFilter p (app s)
      /\ priorityFilter (app (onFilterTasksByPriority p s)) = p
      /\ searchTaskText (app (onFilterTasksByPriority p s)) = searchTaskText (app s)
      /\ statusFilter (app (onFilterTasksByPriority p s)) = statusFilter (app s)
      /\ tasks (app (onFilterTasksByPriority p s)) = tasks (app s)
      /\ categoryMap (app (onFilterTasksByPriority p s)) = categoryMap (app s)
      /\ selectedCategory (app (onFilterTasksByPriority p s)) = selectedCategory (app s)
      /\ stat (app (onFilterTasksByPriority p s)) = stat (app s))
  /\ (exists t',
      deliver localeCompare i 0 (Next (VTasks l)) t = Some t'
      /\ app t' = set_tasks (Some l) (app t)
      /\ pending t' = delete i (pending t)
      /\ tasks (app t') = Some l
      /\ searchTaskText (app t') = searchTaskText (app t)
      /\ statusFilter (app t') = statusFilter (app t)
      /\ priorityFilter (app t') = priorityFilter (app t)
      /\ categoryMap (app t') = categoryMap (app t)
      /\ selectedCategory (app t') = selectedCategory (app t)
      /\ stat (app t') = stat (app t)).
Proof.
  split; [| split; [| split]].
  - intros x. repeat split.
  - intros b. repeat split.
  - intros p. repeat split.
  - eexists. split.
    + rewrite (deliver_single _ _ _ _ _ _ Hwaits). reflexivity.
    + repeat split.
Qed.

(** The search text changes to "milk" on the desktop component and the
    facade answers with one task. *)
Lemma C9_filter_change_frame_witness :
  pending (onSearchTasks "milk" desktop) !! 0%nat
    = Some (Single (searchTasks None "milk" None None) SetTasks)
  /\ exists t',
      deliver codeUnitCompare 0 0 (Next (VTasks [milk None]))
              (onSearchTasks "milk" desktop) = Some t'
      /\ tasks (app t') = Some [milk None]
      /\ categoryMap (app t') = categoryMap (app desktop)
      /\ stat (app t') = stat (app desktop).
Proof.
  split; [reflexivity |].
  destruct (C9_filter_change_frame codeUnitCompare desktop
              (onSearchTasks "milk" desktop) 0
              (searchTasks None "milk" None None) [milk None] eq_refl)
    as (_ & _ & _ & t' & Hd & _ & _ & Ht & _ & _ & _ & Hm & _ & Hs).
  exists t'. repeat split; assumption.
Defined.

(** ** Adding and deleting a task *)

(** C2, as the code has it: adding a task issues the create and nothing
    else; when the created task comes back the recount of its category is
    issued, also when the task has no category (the query then asks for the
    null category); when the recount answers, the count is written to the
    Category Index by one [set] if the task has a category, and the index is
    left alone if it has none. *)
Theorem C2_add_task_chain (localeCompare : string -> string -> Z)
    (s : Sys) (task : Task.t)
    (t1 : Sys) (i1 : nat) (q1 : Request) (created : Task.t)
    (t2 : Sys) (i2 : nat) (q2 : Request) (count : Z)
    (Hcreate : pending t1 !! i1 = Some (Single q1 AddTaskThenCount))
    (Hrecount : pending t2 !! i2 = Some (Single q2 (AfterAddTask created))) :
  onAddTask task s =
    mkSys (app s) (pending s ++ [Single (addTask task) AddTaskThenCount])
  /\ deliver localeCompare i1 0 (Next (VTask created)) t1 =
       Some (mkSys (app t1)
               (delete i1 (pending t1) ++
                [Single (getUncompletedCountInCategory (Task.category created))
                        (AfterAddTask created)]))
  /\ exists t2',
       deliver localeCompare i2 0 (Next (VCount count)) t2 = Some t2'
       /\ categoryMap (app t2') =
            match Task.category created with
            | Some c => <[Category.addr c := count]> (categoryMap (app t2))
            | None => categoryMap (app t2)
            end.
Proof.
  split; [reflexivity | split].
  - rewrite (deliver_single _ _ _ _ _ _ Hcreate). reflexivity.
  - eexists. split.
    + rewrite (deliver_single _ _ _ _ _ _ Hrecount). reflexivity.
    + simpl. unfold afterTaskMutation. destruct (Task.category created); reflexivity.
Qed.

(** A task of category Work is added on the desktop component; the facade
    returns it and then counts 4 uncompleted tasks in Work. *)
Lemma C2_add_task_chain_witness :
  exists t1 t2,
    t1 = onAddTask (milk (Some work)) desktop
    /\ pending t1 !! 0%nat = Some (Single (addTask (milk (Some work))) AddTaskThenCount)
    /\ deliver codeUnitCompare 0 0 (Next (VTask (milk (Some work)))) t1 = Some t2
    /\ pending t2 !! 0%nat =
         Some (Single (getUncompletedCountInCategory (Some work))
                      (AfterAddTask (milk (Some work))))
    /\ exists t3,
         deliver codeUnitCompare 0 0 (Next (VCount 4)) t2 = Some t3
         /\ categoryMap (app t3) = <[Category.addr work := 4]> (categoryMap (app t2)).
Proof.
  pose proof (C2_add_task_chain codeUnitCompare desktop (milk (Some work))
                (onAddTask (milk (Some work)) desktop) 0
                (addTask (milk (Some work))) (milk (Some work))
                (mkSys (app desktop)
                   [Single (getUncompletedCountInCategory (Some work))
                           (AfterAddTask (milk (Some work)))]) 0
                (getUncompletedCountInCategory (Some work)) 4 eq_refl eq_refl)
    as (_ & H1 & t3 & H2 & H3).
  eexists _, _. split; [reflexivity |]. split; [reflexivity |].
  split; [exact H1 |]. split; [reflexivity |].
  exists t3. split; [exact H2 | exact H3].
Defined.

(** C2 as stated fails: the created task has no category, and the recount
    is issued all the same, for the null category. *)
Lemma C2_recount_not_skipped :
  deliver codeUnitCompare 0 0 (Next (VTask (milk None)))
          (onAddTask (milk None) desktop)
  = Some (mkSys (app desktop)
            [Single (getUncompletedCountInCategory None) (AfterAddTask (milk None))]).
Proof. reflexivity. Qed.

(** C3, as the code has it: deleting a task issues the delete and nothing
    else; the recount is issued when the deleted task comes back, so the
    count written to the Category Index is one asked for after the delete was
    confirmed; the task-list refresh and the statistics recompute are issued
    by the subscriber of that chain, when the recount has answered, and not
    before; a recount that fails ends the chain and issues nothing. *)
Theorem C3_delete_task_chain (localeCompare : string -> string -> Z)
    (s : Sys) (task : Task.t)
    (t1 : Sys) (i1 : nat) (q1 : Request) (deleted : Task.t)
    (t2 : Sys) (i2 : nat) (q2 : Request) (count : Z)
    (Hdelete : pending t1 !! i1 = Some (Single q1 DeleteTaskThenCount))
    (Hrecount : pending t2 !! i2 = Some (Single q2 (AfterDeleteTask deleted))) :
  onDeleteTask task s =
    mkSys (app s) (pending s ++ [Single (deleteTask (Task.id task)) DeleteTaskThenCount])
  /\ deliver localeCompare i1 0 (Next (VTask deleted)) t1 =
       Some (mkSys (app t1)
               (delete i1 (pending t1) ++
                [Single (getUncompletedCountInCategory (Task.category deleted))
                        (AfterDeleteTask deleted)]))
  /\ deliver localeCompare i1 0 Error t1 = Some (mkSys (app t1) (delete i1 (pending t1)))
  /\ (exists t2',
       deliver localeCompare i2 0 (Next (VCount count)) t2 = Some t2'
       /\ categoryMap (app t2') =
            match Task.category deleted with
            | Some c => <[Category.addr c := count]> (categoryMap (app t2))
            | None => categoryMap (app t2)
            end
       /\ pending t2' =
            delete i2 (pending t2) ++
            [Single (refreshRequest (app t2)) SetTasks;
             Zip (statSources (selectedCategory (app t2)) None None None None)])
  /\ deliver localeCompare i2 0 Error t2 = Some (mkSys (app t2) (delete i2 (pending t2))).
Proof.
  split; [reflexivity | split; [| split; [| split]]].
  - rewrite (deliver_single _ _ _ _ _ _ Hdelete). reflexivity.
  - rewrite (deliver_single _ _ _ _ _ _ Hdelete). reflexivity.
  - eexists. split.
    + rewrite (deliver_single _ _ _ _ _ _ Hrecount). reflexivity.
    + unfold afterTaskMutation. rewrite updateTasksAndStat_eq.
      destruct (Task.category deleted); simpl; split; reflexivity.
  - rewrite (deliver_single _ _ _ _ _ _ Hrecount). reflexivity.
Qed.

(** A task of category Work is deleted on the desktop component; the facade
    returns it and then counts 2 uncompleted tasks in Work. *)
Lemma C3_delete_task_chain_witness :
  exists t1 t2,
    t1 = onDeleteTask (milk (Some work)) desktop
    /\ pending t1 !! 0%nat = Some (Single (deleteTask 7) DeleteTaskThenCount)
    /\ deliver codeUnitCompare 0 0 (Next (VTask (milk (Some work)))) t1 = Some t2
    /\ pending t2 !! 0%nat =
         Some (Single (getUncompletedCountInCategory (Some work))
                      (AfterDeleteTask (milk (Some work))))
    /\ exists t3,
         deliver codeUnitCompare 0 0 (Next (VCount 2)) t2 = Some t3
         /\ categoryMap (app t3) = <[Category.addr work := 2]> (categoryMap (app t2))
         /\ pending t3 =
              [Single (searchTasks None "" None None) SetTasks;
               Zip (statSources None None None None None)].
Proof.
  pose proof (C3_delete_task_chain codeUnitCompare desktop (milk (Some work))
                (onDeleteTask (milk (Some work)) desktop) 0
                (deleteTask 7) (milk (Some work))
                (mkSys (app desktop)
                   [Single (getUncompletedCountInCategory (Some work))
                           (AfterDeleteTask (milk (Some work)))]) 0
                (getUncompletedCountInCategory (Some work)) 2 eq_refl eq_refl)
    as (_ & H1 & _ & (t3 & H2 & H3 & H4) & _).
  eexists _, _. split; [reflexivity |]. split; [reflexivity |].
  split; [exact H1 |]. split; [reflexivity |].
  exists t3. split; [exact H2 | split; [exact H3 | exact H4]].
Defined.

(** C3 as stated fails: after the delete is confirmed only the recount
    waits, no task-list refresh and no statistics query has been issued; and
    when the recount fails none is issued at all, the task list stays as it
    was. *)
Lemma C3_refresh_waits_for_recount :
  exists t2 t3,
    deliver codeUnitCompare 0 0 (Next (VTask (milk (Some work))))
            (onDeleteTask (milk (Some work)) desktop) = Some t2
    /\ pending t2 =
         [Single (getUncompletedCountInCategory (Some work))
                 (AfterDeleteTask (milk (Some work)))]
    /\ deliver codeUnitCompare 0 0 Error t2 = Some t3
    /\ pending t3 = []
    /\ app t3 = app desktop.
Proof. eexists _, _. repeat split. Qed.

(** C10: when the task that the facade returns for an add or a delete has
    no category, the uncompleted count of the null category is still asked
    for once the mutation is confirmed, and its answer is dropped: the
    component, the Category Index with it, is what it was before the answer;
    only the task-list refresh and the statistics recompute are issued. *)
Theorem C10_no_category_leaves_index (localeCompare : string -> string -> Z)
    (returned : Task.t) (t1 : Sys) (i1 : nat) (q1 : Request)
    (t2 : Sys) (i2 : nat) (q2 : Request) (count : Z)
    (Hnone : Task.category returned = None)
    (Hmutation : pending t1 !! i1 = Some (Single q1 AddTaskThenCount)
                 \/ pending t1 !! i1 = Some (Single q1 DeleteTaskThenCount))
    (Hrecount : pending t2 !! i2 = Some (Single q2 (AfterAddTask returned))
                \/ pending t2 !! i2 = Some (Single q2 (AfterDeleteTask returned))) :
  (exists k,
      deliver localeCompare i1 0 (Next (VTask returned)) t1 =
        Some (mkSys (app t1)
                (delete i1 (pending t1) ++
                 [Single (getUncompletedCountInCategory None) k])))
  /\ (exists t2',
      deliver localeCompare i2 0 (Next (VCount count)) t2 = Some t2'
      /\ app t2' = app t2
      /\ categoryMap (app t2') = categoryMap (app t2)
      /\ pending t2' =
           delete i2 (pending t2) ++
           [Single (refreshRequest (app t2)) SetTasks;
            Zip (statSources (selectedCategory (app t2)) None None None None)]).
Proof.
  split.
  - destruct Hmutation as [H | H]; eexists;
      rewrite (deliver_single _ _ _ _ _ _ H); simpl; rewrite Hnone; reflexivity.
  - destruct Hrecount as [H | H]; eexists;
      (split; [rewrite (deliver_single _ _ _ _ _ _ H); reflexivity |]);
      unfold afterTaskMutation; rewrite Hnone, updateTasksAndStat_eq;
      repeat split.
Qed.

(** An uncategorised task is deleted while Work counts 3; the recount of
    the null category answers 9 and the index still says 3 for Work. *)
Lemma C10_no_category_leaves_index_witness :
  exists t1 t2 t3,
    t1 = onDeleteTask (milk None)
           (categoryMap_set work 3 desktop)
    /\ deliver codeUnitCompare 0 0 (Next (VTask (milk None))) t1 = Some t2
    /\ pending t2 =
         [Single (getUncompletedCountInCategory None) (AfterDeleteTask (milk None))]
    /\ deliver codeUnitCompare 0 0 (Next (VCount 9)) t2 = Some t3
    /\ categoryMap (app t3) = <[Category.addr work := 3]> ∅.
Proof.
  pose proof (C10_no_category_leaves_index codeUnitCompare (milk None)
                (onDeleteTask (milk None) (categoryMap_set work 3 desktop)) 0
                (deleteTask 7)
                (mkSys (app (categoryMap_set work 3 desktop))
                   [Single (getUncompletedCountInCategory None)
                           (AfterDeleteTask (milk None))]) 0
                (getUncompletedCountInCategory None) 9
                eq_refl (or_intror eq_refl) (or_intror eq_refl))
    as ((k & H1) & (t3 & H2 & _ & H3 & _)).
  eexists _, _, t3. split; [reflexivity |].
  split; [reflexivity |]. split; [reflexivity |].
  split; [exact H2 | exact H3].
Defined.

(** ** Deleting a category *)

(** C6: deleting a category issues the delete; when the facade returns the
    deleted category, the selected category becomes null, the entry of that
    category leaves the Category Index and no other entry changes, the
    category search is issued again with the search text the component
    holds, which stays, and the task list is asked for with the null
    category and the current search text and filters. *)
Theorem C6_delete_category (localeCompare : string -> string -> Z)
    (s : Sys) (category : Category.t)
    (t : Sys) (i : nat) (q : Request) (cat : Category.t)
    (Hwaits : pending t !! i = Some (Single q AfterDeleteCategory)) :
  onDeleteCategory category s =
    mkSys (app s)
      (pending s ++ [Single (deleteCategory (Category.id category)) AfterDeleteCategory])
  /\ exists t',
      deliver localeCompare i 0 (Next (VCategory cat)) t = Some t'
      /\ selectedCategory (app t') = None
      /\ categoryMap (app t') = delete (Category.addr cat) (categoryMap (app t))
      /\ categoryMap (app t') !! Category.addr cat = None
      /\ (forall k, k ≠ Category.addr cat ->
                    categoryMap (app t') !! k = categoryMap (app t) !! k)
      /\ searchCategoryText (app t') = searchCategoryText (app t)
      /\ pending t' =
           delete i (pending t) ++
           [Single (searchCategories (searchCategoryText (app t))) AfterSearchCategory;
            Single (searchTasks None (searchTaskText (app t)) (statusFilter (app t))
                                (priorityFilter (app t))) SetTasks]
      /\ tasks (app t') = tasks (app t)
      /\ categories (app t') = categories (app t)
      /\ stat (app t') = stat (app t).
Proof.
  split; [reflexivity |].
  eexists. split.
  - rewrite (deliver_single _ _ _ _ _ _ Hwaits). reflexivity.
  - simpl. repeat split.
    + apply lookup_delete_eq.
    + intros k Hk. by apply lookup_delete_ne.
    + by rewrite <- app_assoc.
Qed.

(** Work is selected and counts 3, Home counts 1; Work is deleted. *)
Lemma C6_delete_category_witness :
  exists t1 t2,
    t1 = onDeleteCategory work
           (upd (set_selectedCategory (Some work))
                (categoryMap_set home 1 (categoryMap_set work 3 desktop)))
    /\ pending t1 !! 0%nat = Some (Single (deleteCategory 1) AfterDeleteCategory)
    /\ deliver codeUnitCompare 0 0 (Next (VCategory work)) t1 = Some t2
    /\ selectedCategory (app t2) = None
    /\ categoryMap (app t2) !! Category.addr work = None
    /\ categoryMap (app t2) !! Category.addr home = Some 1
    /\ pending t2 =
         [Single (searchCategories "") AfterSearchCategory;
          Single (searchTasks None "" None None) SetTasks].
Proof.
  pose proof (C6_delete_category codeUnitCompare desktop work
                (onDeleteCategory work
                   (upd (set_selectedCategory (Some work))
                        (categoryMap_set home 1 (categoryMap_set work 3 desktop))))
                0 (deleteCategory 1) work eq_refl)
    as (_ & t2 & H1 & H2 & _ & H3 & H4 & _ & H5 & _).
  eexists _, t2. split; [reflexivity |]. split; [reflexivity |].
  split; [exact H1 |]. split; [exact H2 |]. split; [exact H3 |].
  split; [| exact H5].
  rewrite (H4 (Category.addr home)); [reflexivity | discriminate].
Defined.

(** ** The statistics barrier *)

Section Barrier.
Variable localeCompare : string -> string -> Z.

(** [fillCategories] issues one count per category of the sorted list. *)
Lemma forEach_subscribe (f : Category.t -> Request) (g : Category.t -> Subscriber)
    (l : list Category.t) (s : Sys) :
  foldl (fun acc cat => subscribe (f cat) (g cat) acc) s l =
    mkSys (app s) (pending s ++ map (fun cat => Single (f cat) (g cat)) l).
Proof.
  revert s. induction l as [| cat l IH]; intros s; simpl.
  - rewrite app_nil_r. by destruct s.
  - rewrite IH. simpl. by rewrite <- app_assoc.
Qed.

Lemma fillCategories_eq (s : Sys) (cs : list Category.t) :
  categories (app s) = Some cs ->
  fillCategories localeCompare s =
    Some (mkSys
            (set_categories (Some (Array_sort (compareTitle localeCompare) cs))
                            (set_categoryMap ∅ (app s)))
            (pending s ++
             map (fun cat => Single (getUncompletedCountInCategory (Some cat))
                                    (SetCount cat))
                 (Array_sort (compareTitle localeCompare) cs))).
Proof.
  intros H. unfold fillCategories. simpl. rewrite H.
  rewrite forEach_subscribe. reflexivity.
Qed.

Lemma fillCategories_Some (s s' : Sys) :
  fillCategories localeCompare s = Some s' ->
  exists cs, categories (app s) = Some cs
    /\ app s' = set_categories (Some (Array_sort (compareTitle localeCompare) cs))
                               (set_categoryMap ∅ (app s))
    /\ pending s' =
         pending s ++
         map (fun cat => Single (getUncompletedCountInCategory (Some cat))
                                (SetCount cat))
             (Array_sort (compareTitle localeCompare) cs).
Proof.
  intros H. destruct (categories (app s)) as [cs |] eqn:Hcs.
  - rewrite (fillCategories_eq _ _ Hcs) in H. injection H as <-. eauto.
  - unfold fillCategories in H. simpl in H. rewrite Hcs in H. discriminate.
Qed.

Lemma Forall_statZip_singles (f : Category.t -> Request) (g : Category.t -> Subscriber)
    (l : list Category.t) :
  Forall statZip (map (fun cat => Single (f cat) (g cat)) l).
Proof. induction l; simpl; constructor; [exact I | assumption]. Qed.

Lemma wf_subscribe (q : Request) (k : Subscriber) (s : Sys) :
  wf s -> wf (subscribe q k s).
Proof.
  unfold wf. simpl. intros H. apply Forall_app. split; [assumption |].
  repeat constructor.
Qed.

Lemma wf_upd (f : AppComponent -> AppComponent) (s : Sys) : wf s -> wf (upd f s).
Proof. exact id. Qed.

Lemma wf_updateStat (s : Sys) : wf s -> wf (updateStat s).
Proof.
  unfold wf. simpl. intros H. apply Forall_app. split; [assumption |].
  constructor; [| constructor]. simpl. by eexists _, _, _, _, _.
Qed.

Lemma wf_updateTasksAndStat (s : Sys) : wf s -> wf (updateTasksAndStat s).
Proof. intros H. apply wf_updateStat. by apply wf_subscribe. Qed.

Lemma wf_finish (i : nat) (s : Sys) : wf s -> wf (finish i s).
Proof. unfold wf. simpl. apply Forall_delete. Qed.

Lemma wf_fillCategories (s s' : Sys) :
  wf s -> fillCategories localeCompare s = Some s' -> wf s'.
Proof.
  intros Hwf H. apply fillCategories_Some in H as (cs & _ & _ & Hp).
  unfold wf. rewrite Hp. apply Forall_app. split; [exact Hwf |].
  apply Forall_statZip_singles.
Qed.

(** No callback of a single request writes the statistics. *)
Lemma run_stat (sub : Subscriber) (v : Value) (s s' : Sys) :
  run localeCompare sub v s = Some s' -> stat (app s') = stat (app s).
Proof.
  destruct sub, v; simpl; intros H; try discriminate H;
    try (injection H as <-; unfold afterTaskMutation;
         try match goal with |- context [Task.category ?t] =>
               destruct (Task.category t) end;
         reflexivity);
    try (apply fillCategories_Some in H as (cs & _ & -> & _); reflexivity);
    try (destruct (fillCategories localeCompare s) as [s1 |] eqn:Hf;
         [| discriminate H]; injection H as <-;
         apply fillCategories_Some in Hf as (cs & _ & Ha & _);
         simpl; unfold stat in *; simpl; rewrite Ha; reflexivity).
Qed.

Lemma wf_run (sub : Subscriber) (v : Value) (s s' : Sys) :
  wf s -> run localeCompare sub v s = Some s' -> wf s'.
Proof.
  intros Hwf.
  destruct sub, v; simpl; intros H; try discriminate H;
    try (injection H as <-; unfold afterTaskMutation;
         try match goal with |- context [Task.category ?t] =>
               destruct (Task.category t) end;
         repeat first [ apply wf_updateTasksAndStat | apply wf_subscribe
                      | apply wf_upd ]; exact Hwf);
    try (eapply wf_fillCategories; [| exact H]; exact Hwf);
    try (destruct (fillCategories localeCompare s) as [s1 |] eqn:Hf;
         [| discriminate H]; injection H as <-;
         apply wf_updateTasksAndStat; eapply wf_fillCategories; [| exact Hf];
         exact Hwf).
Qed.

(** A value for source [k] of a statistics zip keeps the four queries and
    fills slot [k]. *)
Lemma statSources_insert (c : option Category.t) (b0 b1 b2 b3 : option Z)
    (k : nat) (q : Request) (n : Z) :
  statSources c b0 b1 b2 b3 !! k = Some (q, None) ->
  exists b0' b1' b2' b3',
    <[k := (q, Some n)]> (statSources c b0 b1 b2 b3) = statSources c b0' b1' b2' b3'.
Proof.
  destruct k as [| [| [| [| k]]]]; simpl; intros H; try discriminate H;
    injection H as <- _; by eexists _, _, _, _.
Qed.

Lemma statSources_ready (c : option Category.t) (b0 b1 b2 b3 : option Z)
    (array : list Z) :
  zipReady (statSources c b0 b1 b2 b3) = Some array ->
  exists v0 v1 v2 v3,
    b0 = Some v0 /\ b1 = Some v1 /\ b2 = Some v2 /\ b3 = Some v3
    /\ array = [v0; v1; v2; v3].
Proof.
  destruct b0, b1, b2, b3; simpl; intros H; try discriminate H.
  injection H as <-. by eexists _, _, _, _.
Qed.

Lemma wf_deliver (i k : nat) (r : Reply) (s s' : Sys) :
  wf s -> deliver localeCompare i k r s = Some s' -> wf s'.
Proof.
  intros Hwf. unfold deliver.
  destruct (pending s !! i) as [[q sub | sources] |] eqn:Hp; [| | discriminate].
  - destruct k; [| discriminate]. destruct r as [v |].
    + apply wf_run. by apply wf_finish.
    + intros [= <-]. by apply wf_finish.
  - destruct (sources !! k) as [[q [b |]] |] eqn:Hk; try discriminate.
    destruct r as [[] |]; try discriminate.
    + destruct (zipReady _) eqn:Hz; intros [= <-].
      * apply wf_upd. by apply wf_finish.
      * unfold wf. simpl. apply Forall_insert; [exact Hwf |].
        pose proof (Forall_lookup_1 _ _ _ _ Hwf Hp) as (c & b0 & b1 & b2 & b3 & ->).
        destruct (statSources_insert c b0 b1 b2 b3 k q n Hk)
          as (b0' & b1' & b2' & b3' & ->).
        simpl. by eexists _, _, _, _, _.
    + intros [= <-]. by apply wf_finish.
Qed.

(** Every step keeps the waiting zips those that [updateStat] issued. *)
Lemma wf_step (e : Event) (s s' : Sys) :
  wf s -> step localeCompare e s = Some s' -> wf s'.
Proof.
  intros Hwf. destruct e; simpl; try (intros [= <-]);
    try (apply wf_deliver; exact Hwf);
    try (unfold onSelectCategory;
         destruct (isMobile _));
    repeat first [ apply wf_updateTasksAndStat | apply wf_subscribe
                 | apply wf_upd ]; exact Hwf.
Qed.

End Barrier.

(** A value for a source of the zip issued last. *)
Lemma deliver_last_zip (localeCompare : string -> string -> Z)
    (a : AppComponent) (P : list Pending)
    (sources : list (Request * option Z)) (k : nat) (q : Request) (n : Z) :
  sources !! k = Some (q, None) ->
  deliver localeCompare (length P) k (Next (VCount n)) (mkSys a (P ++ [Zip sources])) =
    match zipReady (<[k := (q, Some n)]> sources) with
    | Some array => Some (mkSys (publishStat array a) P)
    | None => Some (mkSys a (P ++ [Zip (<[k := (q, Some n)]> sources)]))
    end.
Proof.
  intros Hk.
  rewrite (deliver_zip_value localeCompare _ (length P) k sources q n);
    [| by apply list_lookup_middle | exact Hk].
  destruct (zipReady _); unfold finish, upd; cbn [app pending].
  - by rewrite delete_middle, app_nil_r.
  - rewrite insert_app_r_alt by lia. by rewrite Nat.sub_diag.
Qed.

(** C4: a statistics recompute, [updateStat], writes no field and issues the
    four count queries for the selected category as one zip.  When the four
    answers arrive, in whatever order, the three first are buffered and
    write nothing, and the fourth runs the subscriber once: the four fields
    become the four values, each in its own field, and the zip is over.  And
    in any one step of the event loop, whatever else waits, the four
    statistics fields either all keep their values or the step is the answer
    that completes one such zip and all four are written from it. *)
Theorem C4_statistics_joined_and_atomic (localeCompare : string -> string -> Z)
    (s : Sys) (e : Event) (t t' : Sys)
    (Hwfs : wf s)
    (Hwf : wf t)
    (Hstep : step localeCompare e t = Some t') :
  updateStat s =
    mkSys (app s)
      (pending s ++ [Zip (statSources (selectedCategory (app s)) None None None None)])
  /\ wf (updateStat s)
  /\ (forall (k1 k2 k3 k4 : nat) (v : nat -> Z),
        (k1 < 4)%nat -> (k2 < 4)%nat -> (k3 < 4)%nat -> (k4 < 4)%nat ->
        k1 ≠ k2 -> k1 ≠ k3 -> k1 ≠ k4 -> k2 ≠ k3 -> k2 ≠ k4 -> k3 ≠ k4 ->
        exists s1 s2 s3 s4,
          deliver localeCompare (length (pending s)) k1 (Next (VCount (v k1)))
                  (updateStat s) = Some s1
          /\ app s1 = app s
          /\ deliver localeCompare (length (pending s)) k2 (Next (VCount (v k2))) s1
             = Some s2
          /\ app s2 = app s
          /\ deliver localeCompare (length (pending s)) k3 (Next (VCount (v k3))) s2
             = Some s3
          /\ app s3 = app s
          /\ deliver localeCompare (length (pending s)) k4 (Next (VCount (v k4))) s3
             = Some s4
          /\ app s4 = publishStat [v 0%nat; v 1%nat; v 2%nat; v 3%nat] (app s)
          /\ stat (app s4) =
               (Some (v 0%nat), Some (v 1%nat), Some (v 2%nat), Some (v 3%nat))
          /\ pending s4 = pending s)
  /\ wf t'
  /\ (stat (app t') = stat (app t)
      \/ exists i k n q sources c v0 v1 v2 v3,
           e = Answer i k (Next (VCount n))
           /\ pending t !! i = Some (Zip sources)
           /\ sources !! k = Some (q, None)
           /\ <[k := (q, Some n)]> sources =
                statSources c (Some v0) (Some v1) (Some v2) (Some v3)
           /\ stat (app t') = (Some v0, Some v1, Some v2, Some v3)
           /\ pending t' = delete i (pending t)).
Proof.
  split; [reflexivity |].
  split; [exact (wf_updateStat _ Hwfs) |].
  split.
  { intros k1 k2 k3 k4 v H1 H2 H3 H4 H12 H13 H14 H23 H24 H34.
    rewrite updateStat_eq.
    destruct k1 as [| [| [| [| k1]]]]; try lia;
      destruct k2 as [| [| [| [| k2]]]]; try lia;
      destruct k3 as [| [| [| [| k3]]]]; try lia;
      destruct k4 as [| [| [| [| k4]]]]; try lia;
      eexists _, _, _, _;
      (split; [erewrite deliver_last_zip by reflexivity; reflexivity |]);
      (split; [reflexivity |]);
      (split; [erewrite deliver_last_zip by reflexivity; reflexivity |]);
      (split; [reflexivity |]);
      (split; [erewrite deliver_last_zip by reflexivity; reflexivity |]);
      (split; [reflexivity |]);
      (split; [erewrite deliver_last_zip by reflexivity; reflexivity |]);
      repeat split. }
  split; [exact (wf_step _ _ _ _ Hwf Hstep) |].
  destruct e; simpl in Hstep;
    try (injection Hstep as <-; left; reflexivity).
  - injection Hstep as <-. left. unfold onSelectCategory.
    destruct (isMobile _); reflexivity.
  - unfold deliver in Hstep.
    destruct (pending t !! i) as [[q sub | sources] |] eqn:Hp; [| | discriminate].
    + left. destruct k; [| discriminate]. destruct r as [v |].
      * apply run_stat in Hstep. exact Hstep.
      * injection Hstep as <-. reflexivity.
    + destruct (sources !! k) as [[q [b |]] |] eqn:Hk; try discriminate.
      destruct r as [[] |]; try discriminate.
      * pose proof (Forall_lookup_1 _ _ _ _ Hwf Hp) as (c & b0 & b1 & b2 & b3 & ->).
        destruct (statSources_insert c b0 b1 b2 b3 k q n Hk)
          as (b0' & b1' & b2' & b3' & Hins).
        rewrite Hins in Hstep.
        destruct (zipReady _) as [array |] eqn:Hz; injection Hstep as <-.
        -- right.
           apply statSources_ready in Hz as (v0 & v1 & v2 & v3 & -> & -> & -> & -> & ->).
           exists i, k, n, q, (statSources c b0 b1 b2 b3), c, v0, v1, v2, v3.
           repeat split; assumption.
        -- left. reflexivity.
      * injection Hstep as <-. left. reflexivity.
Qed.

(** The statistics are recomputed on the desktop component while a task
    search waits; the uncompleted count answers first, then the total, the
    global count and at last the completed count.  Nothing is written before
    the fourth answer, which writes the four fields at once. *)
Lemma C4_statistics_joined_and_atomic_witness :
  exists s1 s2 s3 s4,
    pending (updateStat (onSearchTasks "milk" desktop)) =
      [Single (searchTasks None "milk" None None) SetTasks;
       Zip (statSources None None None None None)]
    /\ step codeUnitCompare (Answer 1 2 (Next (VCount 6)))
            (updateStat (onSearchTasks "milk" desktop)) = Some s1
    /\ step codeUnitCompare (Answer 1 0 (Next (VCount 10))) s1 = Some s2
    /\ step codeUnitCompare (Answer 1 3 (Next (VCount 9))) s2 = Some s3
    /\ stat (app s3) = (None, None, None, None)
    /\ wf s3
    /\ step codeUnitCompare (Answer 1 1 (Next (VCount 4))) s3 = Some s4
    /\ stat (app s4) = (Some 10, Some 4, Some 6, Some 9)
    /\ pending s4 = [Single (searchTasks None "milk" None None) SetTasks]
    /\ wf s4.
Proof.
  assert (Hwfs : wf (onSearchTasks "milk" desktop))
    by (repeat constructor).
  assert (Hwf3 : wf (mkSys (app (onSearchTasks "milk" desktop))
                       [Single (searchTasks None "milk" None None) SetTasks;
                        Zip (statSources None (Some 10) None (Some 6) (Some 9))])).
  { constructor; [exact I |]. constructor; [| constructor].
    simpl. by eexists _, _, _, _, _. }
  destruct (C4_statistics_joined_and_atomic codeUnitCompare
              (onSearchTasks "milk" desktop)
              (Answer 1 1 (Next (VCount 4)))
              (mkSys (app (onSearchTasks "milk" desktop))
                 [Single (searchTasks None "milk" None None) SetTasks;
                  Zip (statSources None (Some 10) None (Some 6) (Some 9))])
              _ Hwfs Hwf3 eq_refl)
    as (Hissue & _ & Hrun & Hwf4 & _).
  destruct (Hrun 2%nat 0%nat 3%nat 1%nat
              (fun k => match k with
                        | O => 10 | 1%nat => 4 | 2%nat => 6 | _ => 9
                        end))
    as (s1 & s2 & s3 & s4 & H1 & _ & H2 & _ & H3 & Ha3 & H4 & _ & Hs4 & Hp4);
    try lia.
  exists s1, s2, s3, s4.
  split; [by rewrite Hissue |]. split; [exact H1 |]. split; [exact H2 |].
  split; [exact H3 |]. split; [by rewrite Ha3 |].
  assert (Hs3 : s3 = mkSys (app (onSearchTasks "milk" desktop))
                        [Single (searchTasks None "milk" None None) SetTasks;
                         Zip (statSources None (Some 10) None (Some 6) (Some 9))]).
  { cbn in H1. injection H1 as <-. cbn in H2. injection H2 as <-.
    cbn in H3. injection H3 as <-. reflexivity. }
  split; [rewrite Hs3; exact Hwf3 |]. split; [exact H4 |].
  split; [exact Hs4 |]. split; [exact Hp4 |].
  rewrite Hs3 in H4. cbn in H4. injection H4 as <-. exact Hwf4.
Defined.

(** C5, as the code has it: [updateStat] adds a zip and cancels none of the
    zips that wait; a zip whose fourth value arrives publishes its tuple
    whatever category is selected by then and whatever was issued after it.
    The statistics shown are those of the zip that completed last. *)
Theorem C5_every_completed_zip_publishes (localeCompare : string -> string -> Z)
    (s : Sys) (i k : nat) (n : Z) (q : Request) (sources : list (Request * option Z))
    (c : option Category.t) (v0 v1 v2 v3 : Z)
    (Hzip : pending s !! i = Some (Zip sources))
    (Hsrc : sources !! k = Some (q, None))
    (Hfull : <[k := (q, Some n)]> sources =
               statSources c (Some v0) (Some v1) (Some v2) (Some v3)) :
  updateStat s =
    mkSys (app s)
      (pending s ++ [Zip (statSources (selectedCategory (app s)) None None None None)])
  /\ exists s',
       deliver localeCompare i k (Next (VCount n)) s = Some s'
       /\ stat (app s') = (Some v0, Some v1, Some v2, Some v3)
       /\ selectedCategory (app s') = selectedCategory (app s)
       /\ pending s' = delete i (pending s).
Proof.
  split; [reflexivity |].
  eexists. split.
  - rewrite (deliver_zip_value _ _ _ _ _ _ _ Hzip Hsrc), Hfull. reflexivity.
  - repeat split.
Qed.

(** Home is selected; the zip issued earlier for Work still waits and gets
    its fourth value. *)
Lemma C5_every_completed_zip_publishes_witness :
  exists s s',
    s = mkSys (set_selectedCategory (Some home) (app desktop))
              [Zip (statSources (Some work) (Some 10) (Some 4) (Some 6) None);
               Zip (statSources (Some home) None None None None)]
    /\ deliver codeUnitCompare 0 3 (Next (VCount 9)) s = Some s'
    /\ stat (app s') = (Some 10, Some 4, Some 6, Some 9)
    /\ selectedCategory (app s') = Some home.
Proof.
  pose proof (C5_every_completed_zip_publishes codeUnitCompare
                (mkSys (set_selectedCategory (Some home) (app desktop))
                   [Zip (statSources (Some work) (Some 10) (Some 4) (Some 6) None);
                    Zip (statSources (Some home) None None None None)])
                0 3 9 getUncompletedTotalCount
                (statSources (Some work) (Some 10) (Some 4) (Some 6) None)
                (Some work) 10 4 6 9 eq_refl eq_refl eq_refl)
    as (_ & s' & H1 & H2 & H3 & _).
  eexists _, s'. split; [reflexivity |]. split; [exact H1 |].
  split; [exact H2 | exact H3].
Defined.

(** C5 as stated fails: Work is selected, then Home; the four counts for
    Home arrive, then the four counts for Work.  The statistics shown at the
    end are the counts of Work, the filter issued first, while Home is
    selected. *)
Lemma C5_earlier_recompute_overwrites :
  exists s2 s6 s10,
    steps codeUnitCompare
      [SelectCategory (Some work); SelectCategory (Some home)] desktop = Some s2
    /\ pending s2 =
         [Single (searchTasks (Some work) "" None None) SetTasks;
          Zip (statSources (Some work) None None None None);
          Single (searchTasks (Some home) "" None None) SetTasks;
          Zip (statSources (Some home) None None None None)]
    /\ steps codeUnitCompare
         [Answer 3 0 (Next (VCount 5)); Answer 3 1 (Next (VCount 2));
          Answer 3 2 (Next (VCount 3)); Answer 3 3 (Next (VCount 9))] s2 = Some s6
    /\ stat (app s6) = (Some 5, Some 2, Some 3, Some 9)
    /\ steps codeUnitCompare
         [Answer 1 0 (Next (VCount 10)); Answer 1 1 (Next (VCount 4));
          Answer 1 2 (Next (VCount 6)); Answer 1 3 (Next (VCount 9))] s6 = Some s10
    /\ selectedCategory (app s10) = Some home
    /\ stat (app s10) = (Some 10, Some 4, Some 6, Some 9).
Proof. eexists _, _, _. repeat split. Qed.

(** C7: when one of the four count queries of a statistics zip fails, the
    zip ends without emission: the component is unchanged, the four
    statistics fields with it, and the zip no longer waits, so nothing can
    be published for it later.  A value that leaves another source
    unanswered is buffered and the component is unchanged as well. *)
Theorem C7_failed_count_withholds_tuple (localeCompare : string -> string -> Z)
    (s : Sys) (i k : nat) (q : Request)
    (c : option Category.t) (b0 b1 b2 b3 : option Z)
    (Hzip : pending s !! i = Some (Zip (statSources c b0 b1 b2 b3)))
    (Hsrc : statSources c b0 b1 b2 b3 !! k = Some (q, None)) :
  deliver localeCompare i k Error s = Some (mkSys (app s) (delete i (pending s)))
  /\ (forall s', deliver localeCompare i k Error s = Some s' ->
                 stat (app s') = stat (app s))
  /\ (forall n s',
        deliver localeCompare i k (Next (VCount n)) s = Some s' ->
        app s' ≠ app s ->
        exists v0 v1 v2 v3,
          <[k := (q, Some n)]> (statSources c b0 b1 b2 b3) =
            statSources c (Some v0) (Some v1) (Some v2) (Some v3)).
Proof.
  pose proof (deliver_zip_error localeCompare _ _ _ _ _ Hzip Hsrc) as He.
  split; [exact He | split].
  - intros s'. rewrite He. intros [= <-]. reflexivity.
  - intros n s'. rewrite (deliver_zip_value _ _ _ _ _ _ _ Hzip Hsrc).
    destruct (statSources_insert c b0 b1 b2 b3 k q n Hsrc)
      as (b0' & b1' & b2' & b3' & Hins).
    rewrite Hins.
    destruct (zipReady _) as [array |] eqn:Hz; intros [= <-] Hne.
    + apply statSources_ready in Hz as (v0 & v1 & v2 & v3 & -> & -> & -> & -> & _).
      by exists v0, v1, v2, v3.
    + simpl in Hne. congruence.
Qed.

(** Three of the four counts have arrived and the completed count fails:
    the statistics shown before stay. *)
Lemma C7_failed_count_withholds_tuple_witness :
  exists s s',
    s = mkSys (publishStat [1; 1; 0; 5] (app desktop))
              [Zip (statSources (Some work) (Some 10) None (Some 6) (Some 9))]
    /\ deliver codeUnitCompare 0 1 Error s = Some s'
    /\ stat (app s') = (Some 1, Some 1, Some 0, Some 5)
    /\ pending s' = [].
Proof.
  pose proof (C7_failed_count_withholds_tuple codeUnitCompare
                (mkSys (publishStat [1; 1; 0; 5] (app desktop))
                   [Zip (statSources (Some work) (Some 10) None (Some 6) (Some 9))])
                0 1 (getCompletedCountInCategory (Some work))
                (Some work) (Some 10) None (Some 6) (Some 9) eq_refl eq_refl)
    as (H1 & H2 & _).
  eexists _, _. split; [reflexivity |]. split; [exact H1 |].
  split; reflexivity.
Defined.

(** ** The sorted category list *)

Section ArraySortFacts.
Context {A : Type} (cmp : A -> A -> Z).

Lemma sort_insert_perm (x : A) (l : list A) : sort_insert cmp x l ≡ₚ x :: l.
Proof.
  induction l as [| y l IH]; simpl; [reflexivity |].
  destruct (cmp x y <=? 0); [reflexivity |].
  rewrite IH. apply Permutation_swap.
Qed.

Lemma Array_sort_perm (l : list A) : Array_sort cmp l ≡ₚ l.
Proof.
  induction l as [| x l IH]; simpl; [reflexivity |].
  rewrite sort_insert_perm. by rewrite IH.
Qed.

(** A consistent comparator: the sign flips with the arguments, and the
    order is transitive. *)
Hypothesis cmp_flip : forall a b, Z.sgn (cmp b a) = - Z.sgn (cmp a b).
Hypothesis cmp_trans : forall a b c, cmp a b <= 0 -> cmp b c <= 0 -> cmp a c <= 0.

Lemma cmp_gt_le (a b : A) : ¬ (cmp a b <= 0) -> cmp b a <= 0.
Proof. intros H. pose proof (cmp_flip a b). lia. Qed.

Lemma cmp_eq_sym (a b : A) : cmp a b = 0 -> cmp b a = 0.
Proof. intros H. pose proof (cmp_flip a b). lia. Qed.

Lemma sort_insert_sorted (x : A) (l : list A) :
  StronglySorted (fun a b => cmp a b <= 0) l ->
  StronglySorted (fun a b => cmp a b <= 0) (sort_insert cmp x l).
Proof.
  induction l as [| y l IH]; simpl; intros Hs.
  - repeat constructor.
  - apply StronglySorted_inv in Hs as [Hl Hy].
    destruct (Z.leb_spec (cmp x y) 0) as [Hle | Hgt].
    + constructor; [by constructor |].
      constructor; [exact Hle |].
      eapply Forall_impl; [exact Hy |]. intros z Hz. simpl in Hz. eauto.
    + constructor; [by apply IH |].
      rewrite sort_insert_perm. constructor; [| exact Hy].
      apply cmp_gt_le. lia.
Qed.

Lemma Array_sort_sorted (l : list A) :
  StronglySorted (fun a b => cmp a b <= 0) (Array_sort cmp l).
Proof.
  induction l as [| x l IH]; simpl; [constructor |].
  by apply sort_insert_sorted.
Qed.

(** Stability: the elements that compare equal to [c] come out in the
    order in which they went in. *)
Lemma sort_insert_stable (c x : A) (l : list A) :
  filter (fun y => cmp y c = 0) (sort_insert cmp x l) =
  filter (fun y => cmp y c = 0) (x :: l).
Proof.
  induction l as [| y l IH]; simpl; [reflexivity |].
  destruct (Z.leb_spec (cmp x y) 0) as [Hle | Hgt]; [reflexivity |].
  rewrite (filter_cons _ y (sort_insert cmp x l)), IH.
  rewrite !(filter_cons _ x), (filter_cons _ y l).
  destruct (decide (cmp x c = 0)) as [Hx | Hx];
    destruct (decide (cmp y c = 0)) as [Hy | Hy]; try reflexivity.
  exfalso. apply cmp_eq_sym in Hy.
  assert (cmp x y <= 0) by (apply (cmp_trans x c y); lia). lia.
Qed.

Lemma Array_sort_stable (c : A) (l : list A) :
  filter (fun y => cmp y c = 0) (Array_sort cmp l) =
  filter (fun y => cmp y c = 0) l.
Proof.
  induction l as [| x l IH]; simpl; [reflexivity |].
  rewrite sort_insert_stable, !filter_cons, IH. reflexivity.
Qed.

End ArraySortFacts.

(** The comparison by code units is consistent. *)
Lemma codeUnitCompare_flip (a b : string) :
  Z.sgn (codeUnitCompare b a) = - Z.sgn (codeUnitCompare a b).
Proof.
  unfold codeUnitCompare. rewrite (String.compare_antisym b a).
  destruct (String.compare a b); reflexivity.
Qed.

Lemma String_compare_trans (a b c : string) :
  String.compare a b ≠ Gt -> String.compare b c ≠ Gt -> String.compare a c ≠ Gt.
Proof.
  revert b c. induction a as [| x a IH]; intros [| y b] [| z c]; simpl;
    try congruence.
  unfold Ascii.compare.
  destruct (N.compare_spec (Ascii.N_of_ascii x) (Ascii.N_of_ascii y)) as [Hxy | Hxy | Hxy];
    destruct (N.compare_spec (Ascii.N_of_ascii y) (Ascii.N_of_ascii z)) as [Hyz | Hyz | Hyz];
    destruct (N.compare_spec (Ascii.N_of_ascii x) (Ascii.N_of_ascii z)) as [Hxz | Hxz | Hxz];
    try congruence; try lia.
  apply IH.
Qed.

Lemma codeUnitCompare_trans (a b c : string) :
  codeUnitCompare a b <= 0 -> codeUnitCompare b c <= 0 -> codeUnitCompare a c <= 0.
Proof.
  unfold codeUnitCompare. intros Hab Hbc.
  assert (H1 : String.compare a b ≠ Gt) by (destruct (String.compare a b); [easy | easy | lia]).
  assert (H2 : String.compare b c ≠ Gt) by (destruct (String.compare b c); [easy | easy | lia]).
  pose proof (String_compare_trans a b c H1 H2).
  destruct (String.compare a c); [lia | lia | congruence].
Qed.

(** C8: [fillCategories] leaves in [categories] the categories it found
    there, ordered by [localeCompare] of the titles, ascending, and for every
    title the categories whose titles compare equal to it stand in the order
    they had before the sort. *)
Theorem C8_categories_sorted_stable (localeCompare : string -> string -> Z)
    (Hflip : forall a b, Z.sgn (localeCompare b a) = - Z.sgn (localeCompare a b))
    (Htrans : forall a b c,
        localeCompare a b <= 0 -> localeCompare b c <= 0 -> localeCompare a c <= 0)
    (s : Sys) (cs : list Category.t)
    (Hcs : categories (app s) = Some cs) :
  exists s' sorted,
    fillCategories localeCompare s = Some s'
    /\ categories (app s') = Some sorted
    /\ sorted ≡ₚ cs
    /\ StronglySorted
         (fun a b => localeCompare (Category.title a) (Category.title b) <= 0) sorted
    /\ forall c,
         filter (fun x => localeCompare (Category.title x) (Category.title c) = 0) sorted =
         filter (fun x => localeCompare (Category.title x) (Category.title c) = 0) cs.
Proof.
  eexists _, _. split; [exact (fillCategories_eq _ _ _ Hcs) |].
  split; [reflexivity |]. split; [apply Array_sort_perm |]. split.
  - apply (Array_sort_sorted (compareTitle localeCompare)); unfold compareTitle; eauto.
  - intros c. apply (Array_sort_stable (compareTitle localeCompare));
      unfold compareTitle; eauto.
Qed.

(** Work, Home and a second Home: the two Homes keep their order. *)
Lemma C8_categories_sorted_stable_witness :
  exists s',
    fillCategories codeUnitCompare desktop = Some s'
    /\ categories (app s') = Some [home; home'; work].
Proof.
  destruct (C8_categories_sorted_stable codeUnitCompare codeUnitCompare_flip
              codeUnitCompare_trans desktop [work; home; home'] eq_refl)
    as (s' & sorted & H1 & H2 & _).
  exists s'. split; [exact H1 |].
  unfold fillCategories in H1. simpl in H1. injection H1 as <-. reflexivity.
Defined.

(** ** What every step keeps *)

Section Frames.
Variable localeCompare : string -> string -> Z.

Lemma sameInputs_refl (a : AppComponent) : sameInputs a a.
Proof. repeat split. Qed.

(** The effect of a callback that returns: it adds subscriptions and cancels
    none, and it writes neither the user's inputs nor the statistics. *)
Lemma run_effect (sub : Subscriber) (v : Value) (s s' : Sys) :
  run localeCompare sub v s = Some s' ->
  (exists new, pending s' = pending s ++ new)
  /\ sameInputs (app s) (app s')
  /\ stat (app s') = stat (app s)
  /\ (selectedCategory (app s') = selectedCategory (app s)
      \/ selectedCategory (app s') = None)
  /\ (categories (app s') = categories (app s)
      \/ exists cs,
           categories (app s') = Some (Array_sort (compareTitle localeCompare) cs)).
Proof.
  assert (Hnil : forall l : list Pending, exists new, l = l ++ new).
  { intros l. exists []. by rewrite app_nil_r. }
  assert (Hfill : forall t t' : Sys,
             fillCategories localeCompare t = Some t' ->
             (exists new, pending t' = pending t ++ new)
             /\ sameInputs (app t) (app t')
             /\ stat (app t') = stat (app t)
             /\ selectedCategory (app t') = selectedCategory (app t)
             /\ exists cs,
                  categories (app t') = Some (Array_sort (compareTitle localeCompare) cs)).
  { intros t t' H. apply fillCategories_Some in H as (cs & _ & Ha & Hp).
    rewrite Ha, Hp. split; [by eexists |]. split; [repeat split |].
    split; [reflexivity |]. split; [reflexivity |]. by eexists. }
  destruct sub, v; simpl; intros H; try discriminate H;
    try (injection H as <-; unfold afterTaskMutation;
         try match goal with |- context [Task.category ?t] =>
               destruct (Task.category t) end;
         simpl; rewrite <- ?app_assoc;
         (split; [first [apply Hnil | by eexists] |]);
         (split; [repeat split |]); (split; [reflexivity |]);
         (split; [first [by left | by right] | by left]));
    try (apply Hfill in H as (Hp & Hi & Hs & Hc & Hcs);
         (split; [exact Hp |]); (split; [exact Hi |]); (split; [exact Hs |]);
         (split; [by left | by right]));
    try (destruct (fillCategories localeCompare s) as [s1 |] eqn:Hf;
         [| discriminate H]; injection H as <-;
         apply Hfill in Hf as ([new Hp] & Hi & Hs & Hc & Hcs);
         simpl; rewrite Hp, <- !app_assoc;
         (split; [by eexists |]); (split; [exact Hi |]); (split; [exact Hs |]);
         (split; [by left | by right])).
Qed.

(** The effect of an answer that is accepted. *)
Lemma deliver_effect (i k : nat) (r : Reply) (s s' : Sys) :
  deliver localeCompare i k r s = Some s' ->
  ((exists new, pending s' = delete i (pending s) ++ new)
   \/ exists p, pending s' = <[i := p]> (pending s))
  /\ sameInputs (app s) (app s')
  /\ (selectedCategory (app s') = selectedCategory (app s)
      \/ selectedCategory (app s') = None)
  /\ (categories (app s') = categories (app s)
      \/ exists cs,
           categories (app s') = Some (Array_sort (compareTitle localeCompare) cs)).
Proof.
  unfold deliver.
  destruct (pending s !! i) as [[q sub | sources] |] eqn:Hp; [| | discriminate].
  - destruct k; [| discriminate]. destruct r as [v |].
    + intros H. apply run_effect in H as (Hn & Hi & _ & Hc & Hcs).
      split; [left; exact Hn |]. split; [exact Hi |]. split; assumption.
    + intros [= <-]. split; [left; exists []; simpl; by rewrite app_nil_r |].
      split; [apply sameInputs_refl |]. split; by left.
  - destruct (sources !! k) as [[q [b |]] |] eqn:Hk; try discriminate.
    destruct r as [[] |]; try discriminate.
    + destruct (zipReady _) eqn:Hz; intros [= <-].
      * split; [left; exists []; simpl; by rewrite app_nil_r |].
        split; [repeat split |]. split; by left.
      * split; [right; by eexists |].
        split; [apply sameInputs_refl |]. split; by left.
    + intros [= <-]. split; [left; exists []; simpl; by rewrite app_nil_r |].
      split; [apply sameInputs_refl |]. split; by left.
Qed.

(** The effect of a handler that the user triggers. *)
Lemma handler_effect (e : Event) (s : Sys) :
  isAnswer e = false ->
  exists s' new,
    step localeCompare e s = Some s'
    /\ pending s' = pending s ++ new
    /\ categoryMap (app s') = categoryMap (app s)
    /\ tasks (app s') = tasks (app s)
    /\ categories (app s') = categories (app s)
    /\ stat (app s') = stat (app s).
Proof.
  destruct e; simpl; intros He; try discriminate He;
    try (eexists _, _; split; [reflexivity |];
         split; [simpl; first [ by rewrite <- ?app_assoc
                              | symmetry; apply app_nil_r ] |];
         repeat split).
  unfold onSelectCategory. rewrite updateTasksAndStat_eq.
  destruct (isMobile _); eexists _, _; (split; [reflexivity |]); repeat split.
Qed.

End Frames.

(** Handlers of the user only issue requests: whatever the state, the handler
    returns, every subscription that waited still waits, in the same order,
    and the Category Index, the task list, the category list and the
    statistics are what they were; these change only when the facade
    answers. *)
Theorem handlers_only_issue_requests (localeCompare : string -> string -> Z)
    (e : Event) (s : Sys)
    (Huser : isAnswer e = false) :
  exists s' new,
    step localeCompare e s = Some s'
    /\ pending s' = pending s ++ new
    /\ categoryMap (app s') = categoryMap (app s)
    /\ tasks (app s') = tasks (app s)
    /\ categories (app s') = categories (app s)
    /\ stat (app s') = stat (app s).
Proof.
  destruct e; try discriminate Huser; cbn [step].
  3: { unfold onSelectCategory. rewrite updateTasksAndStat_eq.
       destruct (isMobile _); eexists _, _; (split; [reflexivity |]); repeat split. }
  all: eexists _, _; (split; [reflexivity |]); cbn;
    (split; [first [ by rewrite <- ?app_assoc | symmetry; apply app_nil_r ] |]);
    repeat split.
Qed.

Lemma handlers_only_issue_requests_witness :
  exists s',
    step codeUnitCompare (UpdateTask (milk (Some work)))
         (categoryMap_set work 3 desktop) = Some s'
    /\ pending s' = [Single (updateTask (milk (Some work))) AfterUpdateTask]
    /\ categoryMap (app s') = <[Category.addr work := 3]> ∅.
Proof.
  destruct (handlers_only_issue_requests codeUnitCompare
              (UpdateTask (milk (Some work))) (categoryMap_set work 3 desktop) eq_refl)
    as (s' & new & H1 & H2 & H3 & _).
  exists s'. split; [exact H1 |].
  simpl in H1. injection H1 as <-. split; reflexivity.
Defined.

(** No answer of the facade writes what the user entered: the two search
    texts, the status and the priority filter, the statistics switch, the
    menu flag and the device flags keep their values through every answer,
    and the selected category stays or becomes null. *)
Theorem answers_keep_user_inputs (localeCompare : string -> string -> Z)
    (i k : nat) (r : Reply) (s s' : Sys)
    (Hstep : step localeCompare (Answer i k r) s = Some s') :
  searchTaskText (app s') = searchTaskText (app s)
  /\ searchCategoryText (app s') = searchCategoryText (app s)
  /\ statusFilter (app s') = statusFilter (app s)
  /\ priorityFilter (app s') = priorityFilter (app s)
  /\ showStat (app s') = showStat (app s)
  /\ menuOpened (app s') = menuOpened (app s)
  /\ isMobile (app s') = isMobile (app s)
  /\ isTablet (app s') = isTablet (app s)
  /\ (selectedCategory (app s') = selectedCategory (app s)
      \/ selectedCategory (app s') = None).
Proof.
  apply deliver_effect in Hstep
    as (_ & (H1 & H2 & H3 & H4 & _ & H6 & H7 & H8 & H9) & Hsel & _).
  repeat (split; [assumption |]). exact Hsel.
Qed.

Lemma answers_keep_user_inputs_witness :
  exists s s',
    s = onDeleteCategory work
          (onSearchCategory "o" (onSelectCategory (Some work) desktop))
    /\ step codeUnitCompare (Answer 3 0 (Next (VCategory work))) s = Some s'
    /\ searchCategoryText (app s') = "o"
    /\ selectedCategory (app s') = None.
Proof.
  eexists _, _. split; [reflexivity |].
  assert (H : step codeUnitCompare (Answer 3 0 (Next (VCategory work)))
                (onDeleteCategory work
                   (onSearchCategory "o" (onSelectCategory (Some work) desktop)))
              = Some (updateTasks
                        (onSearchCategory "o"
                           (categoryMap_delete work
                              (upd (set_selectedCategory None)
                                 (finish 3
                                    (onDeleteCategory work
                                       (onSearchCategory "o"
                                          (onSelectCategory (Some work) desktop)))))))))
    by reflexivity.
  split; [exact H |].
  destruct (answers_keep_user_inputs codeUnitCompare _ _ _ _ _ H) as (_ & H2 & _).
  split; [exact H2 | reflexivity].
Defined.

(** A failed call changes nothing: when the facade answers a waiting
    request, or a source of a statistics zip, with an error, every field of
    the component keeps its value, nothing is issued, and exactly that
    subscription stops waiting. *)
Theorem error_changes_nothing (localeCompare : string -> string -> Z)
    (i k : nat) (s s' : Sys)
    (Hstep : step localeCompare (Answer i k Error) s = Some s') :
  app s' = app s /\ pending s' = delete i (pending s).
Proof.
  simpl in Hstep. unfold deliver in Hstep.
  destruct (pending s !! i) as [[q sub | sources] |]; [| | discriminate].
  - destruct k; [| discriminate]. injection Hstep as <-. split; reflexivity.
  - destruct (sources !! k) as [[q [b |]] |]; try discriminate.
    injection Hstep as <-. split; reflexivity.
Qed.

Lemma error_changes_nothing_witness :
  exists s s',
    s = onAddTask (milk (Some work)) (onSearchTasks "milk" desktop)
    /\ step codeUnitCompare (Answer 1 0 Error) s = Some s'
    /\ app s' = app s
    /\ pending s' = [Single (searchTasks None "milk" None None) SetTasks].
Proof.
  eexists _, _. split; [reflexivity |].
  assert (H : step codeUnitCompare (Answer 1 0 Error)
                (onAddTask (milk (Some work)) (onSearchTasks "milk" desktop))
              = Some (finish 1 (onAddTask (milk (Some work))
                                  (onSearchTasks "milk" desktop))))
    by reflexivity.
  split; [exact H |].
  destruct (error_changes_nothing codeUnitCompare _ _ _ _ H) as [H1 H2].
  split; [exact H1 | exact H2].
Defined.

(** Nothing is ever cancelled: when the facade answers one subscription,
    every other subscription that waited still waits afterwards. *)
Theorem answers_cancel_nothing (localeCompare : string -> string -> Z)
    (i k : nat) (r : Reply) (s s' : Sys) (j : nat) (p : Pending)
    (Hstep : step localeCompare (Answer i k r) s = Some s')
    (Hother : j ≠ i)
    (Hwaits : pending s !! j = Some p) :
  p ∈ pending s'.
Proof.
  apply deliver_effect in Hstep as ([[new Hp] | [p' Hp]] & _); rewrite Hp.
  - apply elem_of_app. left. apply list_elem_of_lookup.
    destruct (decide (j < i)%nat) as [Hlt | Hge].
    + exists j. by rewrite list_lookup_delete_lt.
    + destruct j as [| j']; [lia |].
      exists j'. rewrite list_lookup_delete_ge by lia. exact Hwaits.
  - apply list_elem_of_lookup. exists j.
    by rewrite list_lookup_insert_ne.
Qed.

Lemma answers_cancel_nothing_witness :
  exists s s',
    s = onSelectCategory (Some home) (onSelectCategory (Some work) desktop)
    /\ step codeUnitCompare (Answer 3 2 (Next (VCount 1))) s = Some s'
    /\ Zip (statSources (Some work) None None None None) ∈ pending s'.
Proof.
  eexists _, _. split; [reflexivity |].
  assert (H : step codeUnitCompare (Answer 3 2 (Next (VCount 1)))
                (onSelectCategory (Some home) (onSelectCategory (Some work) desktop))
              = Some (mkSys (app (onSelectCategory (Some home)
                                    (onSelectCategory (Some work) desktop)))
                        [Single (searchTasks (Some work) "" None None) SetTasks;
                         Zip (statSources (Some work) None None None None);
                         Single (searchTasks (Some home) "" None None) SetTasks;
                         Zip (statSources (Some home) None None (Some 1) None)]))
    by reflexivity.
  split; [exact H |].
  apply (answers_cancel_nothing codeUnitCompare 3 2 (Next (VCount 1)) _ _ 1 _ H);
    [discriminate | reflexivity].
Defined.

(** The presentation flags: the menu flag is negated by [toggleMenu], cleared
    by [onClosedMenu] and, on a mobile device only, cleared by selecting a
    category; the statistics switch is written by [toggleStat] only; no other
    event, and no answer of the facade, writes either, and the device flags
    never change. *)
Theorem presentation_flags (localeCompare : string -> string -> Z)
    (e : Event) (s s' : Sys)
    (Hstep : step localeCompare e s = Some s') :
  menuOpened (app s') =
    match e with
    | ToggleMenu => negb (menuOpened (app s))
    | ClosedMenu => false
    | SelectCategory _ => if isMobile (app s) then false else menuOpened (app s)
    | _ => menuOpened (app s)
    end
  /\ showStat (app s') =
       match e with
       | ToggleStat b => b
       | _ => showStat (app s)
       end
  /\ isMobile (app s') = isMobile (app s)
  /\ isTablet (app s') = isTablet (app s).
Proof.
  destruct e; simpl in Hstep;
    try (injection Hstep as <-; repeat split; fail).
  - injection Hstep as <-. unfold onSelectCategory. simpl.
    destruct (isMobile (app s)) eqn:Hm; repeat split; exact Hm.
  - apply deliver_effect in Hstep
      as (_ & (_ & _ & _ & _ & _ & H6 & H7 & H8 & H9) & _).
    repeat split; assumption.
Qed.

Lemma presentation_flags_witness :
  exists s',
    step codeUnitCompare (SelectCategory (Some work)) (constructor true false) = Some s'
    /\ menuOpened (app s') = false
    /\ showStat (app s') = false.
Proof.
  exists (onSelectCategory (Some work) (constructor true false)).
  split; [reflexivity |].
  destruct (presentation_flags codeUnitCompare (SelectCategory (Some work))
              (constructor true false) _ eq_refl) as (H1 & H2 & _).
  split; [exact H1 | exact H2].
Defined.

(** ** Invariants of the event loop *)

Section Invariants.
Variable localeCompare : string -> string -> Z.

(** What every step keeps, every run keeps. *)
Lemma steps_invariant (P : Sys -> Prop) :
  (forall e s s', P s -> step localeCompare e s = Some s' -> P s') ->
  forall es s s', P s -> steps localeCompare es s = Some s' -> P s'.
Proof.
  intros Hstep es. induction es as [| e es IH]; simpl; intros s s' HP H.
  - by injection H as <-.
  - destruct (step localeCompare e s) as [s1 |] eqn:He; [| discriminate].
    eapply IH; [| exact H]. eapply Hstep; [exact HP | exact He].
Qed.

(** A step changes the category list only to a sorted list. *)
Lemma step_categories (e : Event) (s s' : Sys) :
  step localeCompare e s = Some s' ->
  categories (app s') = categories (app s)
  \/ exists cs, categories (app s') = Some (Array_sort (compareTitle localeCompare) cs).
Proof.
  intros H. destruct (isAnswer e) eqn:He.
  - destruct e; try discriminate He. simpl in H.
    apply deliver_effect in H as (_ & _ & _ & Hc). exact Hc.
  - destruct (handler_effect localeCompare e s He) as (s1 & new & H1 & _ & _ & _ & Hc & _).
    rewrite H1 in H. injection H as <-. by left.
Qed.

(** A step leaves the statistics or writes four numbers. *)
Lemma step_stat (e : Event) (s s' : Sys) :
  wf s ->
  step localeCompare e s = Some s' ->
  stat (app s') = stat (app s)
  \/ exists v0 v1 v2 v3, stat (app s') = (Some v0, Some v1, Some v2, Some v3).
Proof.
  intros Hwf H. destruct (isAnswer e) eqn:He.
  - destruct e; try discriminate He. simpl in H. unfold deliver in H.
    destruct (pending s !! i) as [[q sub | sources] |] eqn:Hp; [| | discriminate].
    + left. destruct k; [| discriminate]. destruct r as [v |].
      * by apply run_stat in H.
      * by injection H as <-.
    + destruct (sources !! k) as [[q [b |]] |] eqn:Hk; try discriminate.
      destruct r as [[] |]; try discriminate.
      * pose proof (Forall_lookup_1 _ _ _ _ Hwf Hp) as (c & b0 & b1 & b2 & b3 & ->).
        destruct (statSources_insert c b0 b1 b2 b3 k q n Hk)
          as (b0' & b1' & b2' & b3' & Hins).
        rewrite Hins in H.
        destruct (zipReady _) as [array |] eqn:Hz; injection H as <-.
        -- right.
           apply statSources_ready in Hz as (v0 & v1 & v2 & v3 & _ & _ & _ & _ & ->).
           by exists v0, v1, v2, v3.
        -- by left.
      * injection H as <-. by left.
  - destruct (handler_effect localeCompare e s He) as (s1 & new & H1 & _ & _ & _ & _ & Hs).
    rewrite H1 in H. injection H as <-. by left.
Qed.

End Invariants.

(** ** Invariants of the component's life *)

Section LifeFacts.
Variable localeCompare : string -> string -> Z.

(** What every event of a kind keeps, every life made of such events keeps. *)
Lemma liveSteps_invariant (P : Live -> Prop) (A : LiveEvent -> Prop) :
  (forall e c c', A e -> P c -> liveStep localeCompare e c = Some c' -> P c') ->
  forall es c c',
    Forall A es -> P c -> liveSteps localeCompare es c = Some c' -> P c'.
Proof.
  intros Hstep es. induction es as [| e es IH]; simpl; intros c c' HA HP H.
  - by injection H as <-.
  - apply Forall_cons in HA as [He HA].
    destruct (liveStep localeCompare e c) as [c1 |] eqn:Hc; [| discriminate].
    eapply IH; [exact HA | | exact H]. eapply Hstep; [exact He | exact HP | exact Hc].
Qed.

(** A raise is where the loop of [step] stops, and it leaves the component
    with the index cleared, the undefined list and one subscription less. *)
Lemma raised_effect (e : Event) (s s' : Sys) :
  raised e s = Some s' ->
  step localeCompare e s = None
  /\ categories (app s) = None
  /\ exists i, s' = fillCategoriesRaised (finish i s).
Proof.
  destruct e as [| | | | | | | | | | | | | | i k r]; try discriminate.
  destruct k; [| discriminate]. destruct r as [v |]; [| discriminate].
  cbn [raised step]. unfold deliver.
  destruct (pending s !! i) as [[q sub | sources] |]; try discriminate.
  destruct (rebuilds sub) eqn:Hsub; [| discriminate].
  destruct (categories (app s)) eqn:Hcs; [discriminate |].
  intros [= <-].
  assert (Hf : fillCategories localeCompare (finish i s) = None).
  { unfold fillCategories. cbn. by rewrite Hcs. }
  split; [| split; [reflexivity | by exists i]].
  destruct sub; try discriminate Hsub; cbn [run]; by rewrite ?Hf.
Qed.

(** The core of the component after one event of its life. *)
Lemma liveStep_core (e : LiveEvent) (c c' : Live) :
  liveStep localeCompare e c = Some c' ->
  match e with
  | Core e' =>
      step localeCompare e' (core c) = Some (core c')
      \/ raised e' (core c) = Some (core c')
  | PrioritiesAnswer (Some l) => core c' = upd (set_priorities (Some l)) (core c)
  | CategoriesAnswer (Some l) => core c' = upd (set_categories (Some l)) (core c)
  | _ => core c' = core c
  end.
Proof.
  destruct e as [e' | [l |] | [l |]]; cbn [liveStep].
  - destruct (step localeCompare e' (core c)) as [s1 |]; [intros [= <-]; by left |].
    destruct (raised e' (core c)) as [s1 |]; [intros [= <-]; by right | discriminate].
  - destruct (prioritiesWait c); [intros [= <-]; reflexivity | discriminate].
  - destruct (prioritiesWait c); [intros [= <-]; reflexivity | discriminate].
  - destruct (categoriesWait c); [intros [= <-]; reflexivity | discriminate].
  - destruct (categoriesWait c); [intros [= <-]; reflexivity | discriminate].
Qed.

End LifeFacts.

(** The category list stays sorted, but for one callback.  For a consistent
    [localeCompare], a list that is undefined or in ascending order of title
    is so after every event of the component's life, the callbacks that
    raise included, except the value answer to the [getAllCategories] of
    [ngOnInit]: that callback stores the facade's list as it comes, and the
    list is the facade's until the next rebuild.  So from [ngOnInit] on the
    list is sorted as long as that answer has not come. *)
Theorem categories_stay_sorted (localeCompare : string -> string -> Z)
    (Hflip : forall a b, Z.sgn (localeCompare b a) = - Z.sgn (localeCompare a b))
    (Htrans : forall a b c,
        localeCompare a b <= 0 -> localeCompare b c <= 0 -> localeCompare a c <= 0)
    (mobile tablet : bool) (es : list LiveEvent) (c0 c : Live)
    (Hsorted : categoriesSorted localeCompare (core c0))
    (Hnolist : Forall (fun e => storesFacadeList e = false) es)
    (Hrun : liveSteps localeCompare es c0 = Some c) :
  categoriesSorted localeCompare (core c)
  /\ categoriesSorted localeCompare
       (core (ngOnInit localeCompare (constructor mobile tablet)))
  /\ (forall cs c',
        liveStep localeCompare (CategoriesAnswer (Some cs)) c = Some c' ->
        categories (app (core c')) = Some cs).
Proof.
  split; [| split].
  - revert Hrun. revert Hnolist Hsorted.
    apply (liveSteps_invariant localeCompare
             (fun c => categoriesSorted localeCompare (core c))
             (fun e => storesFacadeList e = false)).
    intros e c1 c2 He Hs H. apply liveStep_core in H.
    unfold categoriesSorted in *.
    destruct e as [e' | [l |] | [l |]]; try discriminate He;
      try (rewrite H; exact Hs).
    destruct H as [H | H].
    + apply step_categories in H as [-> | [cs ->]]; [exact Hs |].
      apply (Array_sort_sorted (compareTitle localeCompare));
        unfold compareTitle; eauto.
    + apply (raised_effect localeCompare) in H as (_ & Hcs & i & ->).
      cbn. by rewrite Hcs.
  - by destruct mobile, tablet.
  - intros cs c' H. apply liveStep_core in H. by rewrite H.
Qed.

(** From [ngOnInit]: a task is updated and its answer raises, the list being
    undefined; a search for "o" is answered with Work, Home and Home; a
    category is added and confirmed; the priorities arrive. *)
Lemma categories_stay_sorted_witness :
  exists c,
    liveSteps codeUnitCompare
      [Core (UpdateTask (milk None));
       Core (Answer 0 0 (Next VUnit));
       Core (SearchCategory "o");
       Core (Answer 0 0 (Next (VCategories [work; home; home'])));
       Core (AddCategory "Sport");
       Core (Answer 3 0 (Next (VCategory (Category.mk 4 4 "Sport"))));
       PrioritiesAnswer (Some [])]
      (ngOnInit codeUnitCompare (constructor false false)) = Some c
    /\ categories (app (core c)) = Some [home; home'; work]
    /\ categoriesSorted codeUnitCompare (core c).
Proof.
  eexists. split; [reflexivity |]. split; [reflexivity |].
  apply (categories_stay_sorted codeUnitCompare codeUnitCompare_flip
           codeUnitCompare_trans false false
           [Core (UpdateTask (milk None));
            Core (Answer 0 0 (Next VUnit));
            Core (SearchCategory "o");
            Core (Answer 0 0 (Next (VCategories [work; home; home'])));
            Core (AddCategory "Sport");
            Core (Answer 3 0 (Next (VCategory (Category.mk 4 4 "Sport"))));
            PrioritiesAnswer (Some [])]
           (ngOnInit codeUnitCompare (constructor false false)));
    [exact I | repeat constructor | reflexivity].
Defined.

(** The statistics are never half there: in every state of the component's
    life, from [ngOnInit] on the constructed component, through the answers
    to its two subscriptions and the callbacks that raise, every waiting zip
    is one of [updateStat] and the four statistics fields are all undefined
    or all numbers. *)
Theorem statistics_all_or_none (localeCompare : string -> string -> Z)
    (mobile tablet : bool) (es : list LiveEvent) (c : Live)
    (Hrun : liveSteps localeCompare es
              (ngOnInit localeCompare (constructor mobile tablet)) = Some c) :
  wf (core c) /\ statAllOrNone (app (core c)).
Proof.
  revert Hrun.
  apply (liveSteps_invariant localeCompare
           (fun c => wf (core c) /\ statAllOrNone (app (core c)))
           (fun _ => True)).
  - intros e c1 c2 _ [Hwf Hst] H. apply liveStep_core in H.
    unfold statAllOrNone in *.
    destruct e as [e' | [l |] | [l |]]; try (rewrite H; by split).
    destruct H as [H | H].
    + split; [exact (wf_step _ _ _ _ Hwf H) |].
      apply (step_stat _ _ _ _ Hwf) in H as [-> | Hnew]; [exact Hst | by right].
    + apply (raised_effect localeCompare) in H as (_ & _ & i & ->).
      split; [by apply wf_upd, wf_finish | exact Hst].
  - by apply Forall_true.
  - destruct mobile, tablet; (split; [constructor | by left]).
Qed.

(** From [ngOnInit]: the categories arrive; a task is updated and confirmed,
    which issues the statistics; two of the four counts answer. *)
Lemma statistics_all_or_none_witness :
  exists c,
    liveSteps codeUnitCompare
      [CategoriesAnswer (Some [work; home]);
       Core (UpdateTask (milk (Some work)));
       Core (Answer 0 0 (Next VUnit));
       Core (Answer 3 2 (Next (VCount 3)));
       Core (Answer 3 0 (Next (VCount 7)))]
      (ngOnInit codeUnitCompare (constructor false false)) = Some c
    /\ stat (app (core c)) = (None, None, None, None)
    /\ pending (core c) =
         countRequests [home; work]
         ++ [Single (searchTasks None "" None None) SetTasks;
             Zip (statSources None (Some 7) None (Some 3) None)]
    /\ statAllOrNone (app (core c)).
Proof.
  eexists. split; [reflexivity |]. split; [reflexivity |]. split; [reflexivity |].
  apply (statistics_all_or_none codeUnitCompare false false
           [CategoriesAnswer (Some [work; home]);
            Core (UpdateTask (milk (Some work)));
            Core (Answer 0 0 (Next VUnit));
            Core (Answer 3 2 (Next (VCount 3)));
            Core (Answer 3 0 (Next (VCount 7)))]).
  reflexivity.
Defined.

(** Once the category list is loaded no callback raises: the list stays
    defined through every step, and every answer whose value has the type of
    the callback's parameter is accepted, to a single request as to any
    source of a zip that has not answered yet. *)
Theorem loaded_component_never_raises (localeCompare : string -> string -> Z)
    (s : Sys) (cs : list Category.t)
    (Hloaded : categories (app s) = Some cs) :
  (forall e s', step localeCompare e s = Some s' -> is_Some (categories (app s')))
  /\ (forall i q sub v,
        pending s !! i = Some (Single q sub) ->
        accepts sub v = true ->
        is_Some (deliver localeCompare i 0 (Next v) s))
  /\ (forall i sources k q n,
        pending s !! i = Some (Zip sources) ->
        sources !! k = Some (q, None) ->
        is_Some (deliver localeCompare i k (Next (VCount n)) s)).
Proof.
  split; [| split].
  - intros e s' H. apply step_categories in H as [-> | [cs' ->]]; [by rewrite Hloaded | done].
  - intros i q sub v Hw Ha. rewrite (deliver_single _ _ _ _ _ _ Hw).
    assert (Hf : forall t, categories (app t) = Some cs ->
                           is_Some (fillCategories localeCompare t)).
    { intros t Ht. by rewrite (fillCategories_eq _ _ _ Ht). }
    destruct sub, v; simpl in Ha; try discriminate Ha; simpl; try done;
      try (apply Hf; exact Hloaded).
    all: destruct (Hf (finish i s) Hloaded) as [s1 ->]; done.
  - intros i sources k q n Hz Hk. rewrite (deliver_zip_value _ _ _ _ _ _ _ Hz Hk).
    destruct (zipReady _); done.
Qed.

Lemma loaded_component_never_raises_witness :
  is_Some (deliver codeUnitCompare 0 0 (Next VUnit)
             (onUpdateTask (milk (Some work)) desktop)).
Proof.
  destruct (loaded_component_never_raises codeUnitCompare
              (onUpdateTask (milk (Some work)) desktop)
              [work; home; home'] eq_refl) as (_ & H & _).
  apply (H 0%nat (updateTask (milk (Some work))) AfterUpdateTask VUnit);
    reflexivity.
Defined.

(** While the category list is undefined, as the constructor leaves it, the
    callbacks that rebuild the index from the list the component holds
    raise: the answer to an added category or to an updated task is refused,
    and the refresh that would follow the rebuild is not issued. *)
Theorem unloaded_rebuild_raises (localeCompare : string -> string -> Z)
    (s : Sys) (i : nat) (q : Request) (sub : Subscriber) (v : Value)
    (Hunloaded : categories (app s) = None)
    (Hwaits : pending s !! i = Some (Single q sub))
    (Hrebuild : sub = AfterAddCategory \/ sub = AfterUpdateTask) :
  fillCategories localeCompare s = None
  /\ deliver localeCompare i 0 (Next v) s = None.
Proof.
  assert (Hf : forall t, categories (app t) = None ->
                         fillCategories localeCompare t = None).
  { intros t Ht. unfold fillCategories. simpl. by rewrite Ht. }
  split; [by apply Hf |].
  rewrite (deliver_single _ _ _ _ _ _ Hwaits).
  destruct Hrebuild as [-> | ->]; simpl.
  - by apply Hf.
  - by rewrite (Hf (finish i s) Hunloaded).
Qed.

Lemma unloaded_rebuild_raises_witness :
  categories (app (constructor false false)) = None
  /\ deliver codeUnitCompare 0 0 (Next VUnit)
       (onUpdateTask (milk (Some work)) (constructor false false)) = None.
Proof.
  split; [reflexivity |].
  apply (unloaded_rebuild_raises codeUnitCompare
           (onUpdateTask (milk (Some work)) (constructor false false))
           0 (updateTask (milk (Some work))) AfterUpdateTask VUnit eq_refl eq_refl).
  by right.
Defined.

(** ** Rebuilding the Category Index *)

Section Rebuild.
Variable localeCompare : string -> string -> Z.

Lemma set_categoryMap_same (a : AppComponent) : set_categoryMap (categoryMap a) a = a.
Proof. by destruct a. Qed.

(** The counts of [fillCategories] answered in the order of issue. *)
Lemma answer_counts (count : Category.t -> Z) (l : list Category.t)
    (a : AppComponent) (P : list Pending) :
  steps localeCompare
    (map (fun cat => Answer (length P) 0 (Next (VCount (count cat)))) l)
    (mkSys a (P ++ countRequests l))
  = Some (mkSys (set_categoryMap (writeCounts count l (categoryMap a)) a) P).
Proof.
  revert a. induction l as [| cat l IH]; intros a.
  - simpl. by rewrite app_nil_r, set_categoryMap_same.
  - cbn [map steps step countRequests].
    rewrite (deliver_single localeCompare _ (length P)
               (getUncompletedCountInCategory (Some cat)) (SetCount cat));
      [| by apply list_lookup_middle].
    unfold categoryMap_set, upd, finish. cbn [pending app].
    rewrite delete_middle.
    exact (IH (set_categoryMap (<[Category.addr cat := count cat]> (categoryMap a)) a)).
Qed.

Lemma writeCounts_other (count : Category.t -> Z) (l : list Category.t)
    (m : gmap positive Z) (k : positive) :
  k ∉ Category.addr <$> l -> writeCounts count l m !! k = m !! k.
Proof.
  revert m. induction l as [| x l IH]; intros m Hk; [reflexivity |].
  rewrite fmap_cons, not_elem_of_cons in Hk. destruct Hk as [Hx Hl].
  change (writeCounts count l (<[Category.addr x := count x]> m) !! k = m !! k).
  rewrite (IH _ Hl). by rewrite lookup_insert_ne.
Qed.

Lemma writeCounts_listed (count : Category.t -> Z) (l : list Category.t)
    (m : gmap positive Z) (cat : Category.t) :
  NoDup (Category.addr <$> l) -> cat ∈ l ->
  writeCounts count l m !! Category.addr cat = Some (count cat).
Proof.
  revert m. induction l as [| x l IH]; intros m Hnd Hin.
  - by apply elem_of_nil in Hin.
  - rewrite fmap_cons in Hnd. apply NoDup_cons in Hnd as [Hx Hnd].
    change (writeCounts count l (<[Category.addr x := count x]> m)
              !! Category.addr cat = Some (count cat)).
    apply elem_of_cons in Hin as [-> | Hin].
    + rewrite (writeCounts_other _ _ _ _ Hx). apply lookup_insert_eq.
    + by apply IH.
Qed.

(** A sorted array comes back from [sort] as it is. *)
Lemma Array_sort_sorted_id {A : Type} (cmp : A -> A -> Z) (l : list A) :
  StronglySorted (fun a b => cmp a b <= 0) l -> Array_sort cmp l = l.
Proof.
  induction l as [| x l IH]; intros Hs; [reflexivity |].
  apply StronglySorted_inv in Hs as [Hl Hx].
  simpl. rewrite (IH Hl). destruct l as [| y l']; [reflexivity |].
  simpl. apply Forall_cons in Hx as [Hxy _].
  destruct (Z.leb_spec (cmp x y) 0); [reflexivity | lia].
Qed.

End Rebuild.

(** The rebuild of the Category Index, end to end: [fillCategories] empties
    the index and issues one count per category of the list; when these
    counts have been answered, in the order of issue, the index holds for
    every category of the list the count answered for it and holds nothing
    else, and what waited before still waits.  The categories are distinct
    objects. *)
Theorem rebuild_round_trip (localeCompare : string -> string -> Z)
    (s : Sys) (cs : list Category.t) (count : Category.t -> Z)
    (Hloaded : categories (app s) = Some cs)
    (Hdistinct : NoDup (Category.addr <$> cs)) :
  exists s1 s2,
    fillCategories localeCompare s = Some s1
    /\ categoryMap (app s1) = ∅
    /\ pending s1 =
         pending s ++ countRequests (Array_sort (compareTitle localeCompare) cs)
    /\ steps localeCompare
         (map (fun cat => Answer (length (pending s)) 0 (Next (VCount (count cat))))
              (Array_sort (compareTitle localeCompare) cs)) s1 = Some s2
    /\ pending s2 = pending s
    /\ (forall cat, cat ∈ cs ->
                    categoryMap (app s2) !! Category.addr cat = Some (count cat))
    /\ (forall k, k ∉ Category.addr <$> cs -> categoryMap (app s2) !! k = None).
Proof.
  eexists _, _. split; [exact (fillCategories_eq _ _ _ Hloaded) |].
  split; [reflexivity |]. split; [reflexivity |].
  split; [apply answer_counts |]. split; [reflexivity |].
  cbn [app categoryMap set_categoryMap set_categories]. split.
  - intros cat Hin. apply writeCounts_listed.
    + by rewrite Array_sort_perm.
    + by rewrite Array_sort_perm.
  - intros k Hk. rewrite writeCounts_other; [apply lookup_empty |].
    by rewrite Array_sort_perm.
Qed.

(** Work and Home while a task search waits: the index held a stale entry;
    after the rebuild and its two answers it holds 3 for Work and 1 for
    Home, and the task search still waits. *)
Lemma rebuild_round_trip_witness :
  exists s s1 s2,
    s = onSearchTasks "milk"
          (upd (set_categories (Some [work; home]))
               (categoryMap_set home' 8 desktop))
    /\ fillCategories codeUnitCompare s = Some s1
    /\ steps codeUnitCompare
         [Answer 1 0 (Next (VCount 1)); Answer 1 0 (Next (VCount 3))] s1 = Some s2
    /\ categoryMap (app s2) !! Category.addr work = Some 3
    /\ categoryMap (app s2) !! Category.addr home = Some 1
    /\ categoryMap (app s2) !! Category.addr home' = None
    /\ pending s2 = [Single (searchTasks None "milk" None None) SetTasks].
Proof.
  assert (Hnd : NoDup (Category.addr <$> [work; home])).
  { apply NoDup_cons. split; [| apply NoDup_singleton].
    intros H. apply list_elem_of_singleton in H. discriminate H. }
  destruct (rebuild_round_trip codeUnitCompare
              (onSearchTasks "milk"
                 (upd (set_categories (Some [work; home]))
                      (categoryMap_set home' 8 desktop)))
              [work; home]
              (fun cat => if Pos.eqb (Category.addr cat) 1 then 3 else 1)
              eq_refl Hnd)
    as (s1 & s2 & H1 & _ & _ & H2 & H3 & H4 & H5).
  eexists _, s1, s2. split; [reflexivity |]. split; [exact H1 |].
  split; [exact H2 |].
  split; [apply (H4 work); apply list_elem_of_here |].
  split; [apply (H4 home); apply list_elem_of_further, list_elem_of_here |].
  split; [| exact H3].
  apply (H5 (Category.addr home')).
  intros H. apply elem_of_cons in H as [H | H]; [discriminate H |].
  apply list_elem_of_singleton in H. discriminate H.
Defined.

(** The answer to a category search never raises: whatever the category
    list was, undefined too, it becomes the answer sorted by title, the
    index is emptied and one count is issued per category of the answer, in
    sorted order; the search text, the selection, the task list and the
    statistics stay.  For an empty answer nothing is issued. *)
Theorem search_answer_replaces_list (localeCompare : string -> string -> Z)
    (t : Sys) (i : nat) (q : Request) (cs : list Category.t)
    (Hwaits : pending t !! i = Some (Single q AfterSearchCategory)) :
  exists t',
    deliver localeCompare i 0 (Next (VCategories cs)) t = Some t'
    /\ categories (app t') = Some (Array_sort (compareTitle localeCompare) cs)
    /\ categoryMap (app t') = ∅
    /\ pending t' =
         delete i (pending t) ++ countRequests (Array_sort (compareTitle localeCompare) cs)
    /\ (cs = [] -> pending t' = delete i (pending t))
    /\ searchCategoryText (app t') = searchCategoryText (app t)
    /\ selectedCategory (app t') = selectedCategory (app t)
    /\ tasks (app t') = tasks (app t)
    /\ stat (app t') = stat (app t).
Proof.
  eexists. split.
  - rewrite (deliver_single _ _ _ _ _ _ Hwaits). cbn [run].
    apply fillCategories_eq. reflexivity.
  - cbn. repeat split. intros ->. apply app_nil_r.
Qed.

Lemma search_answer_replaces_list_witness :
  exists t',
    deliver codeUnitCompare 0 0 (Next (VCategories [work; home]))
            (onSearchCategory "o" (constructor false false)) = Some t'
    /\ categories (app t') = Some [home; work]
    /\ pending t' = countRequests [home; work].
Proof.
  destruct (search_answer_replaces_list codeUnitCompare
              (onSearchCategory "o" (constructor false false)) 0
              (searchCategories "o") [work; home] eq_refl)
    as (t' & H1 & H2 & _ & H3 & _).
  exists t'. split; [exact H1 |]. split; [exact H2 | exact H3].
Defined.

(** The answer to an updated task rebuilds everything: the index is emptied,
    the list sorted, and after the subscriptions that waited come one count
    per category, the task-list refresh under the current filters and the
    statistics zip for the selected category, in that order. *)
Theorem update_task_rebuilds_everything (localeCompare : string -> string -> Z)
    (t : Sys) (i : nat) (q : Request) (v : Value) (cs : list Category.t)
    (Hloaded : categories (app t) = Some cs)
    (Hwaits : pending t !! i = Some (Single q AfterUpdateTask)) :
  exists t',
    deliver localeCompare i 0 (Next v) t = Some t'
    /\ categoryMap (app t') = ∅
    /\ categories (app t') = Some (Array_sort (compareTitle localeCompare) cs)
    /\ pending t' =
         delete i (pending t)
         ++ countRequests (Array_sort (compareTitle localeCompare) cs)
         ++ [Single (refreshRequest (app t)) SetTasks;
             Zip (statSources (selectedCategory (app t)) None None None None)].
Proof.
  eexists. split.
  - rewrite (deliver_single _ _ _ _ _ _ Hwaits).
    assert (Hr : forall s, run localeCompare AfterUpdateTask v s =
                           match fillCategories localeCompare s with
                           | Some s1 => Some (updateTasksAndStat s1)
                           | None => None
                           end) by (intros s; by destruct v).
    rewrite Hr, (fillCategories_eq localeCompare (finish i t) cs Hloaded).
    rewrite updateTasksAndStat_eq. reflexivity.
  - cbn. repeat split. by rewrite <- app_assoc.
Qed.

Lemma update_task_rebuilds_everything_witness :
  exists t',
    deliver codeUnitCompare 0 0 (Next VUnit)
            (onUpdateTask (milk (Some work)) (categoryMap_set work 3 desktop)) = Some t'
    /\ categoryMap (app t') = ∅
    /\ pending t' =
         countRequests [home; home'; work]
         ++ [Single (searchTasks None "" None None) SetTasks;
             Zip (statSources None None None None None)].
Proof.
  destruct (update_task_rebuilds_everything codeUnitCompare
              (onUpdateTask (milk (Some work)) (categoryMap_set work 3 desktop)) 0
              (updateTask (milk (Some work))) VUnit [work; home; home'] eq_refl eq_refl)
    as (t' & H1 & H2 & _ & H3).
  exists t'. split; [exact H1 |]. split; [exact H2 | exact H3].
Defined.



(** A rebuild does not reorder a sorted list: when the category list is in
    ascending order of title, [fillCategories] leaves it as it is, equal
    titles included. *)
Theorem rebuild_keeps_sorted_list (localeCompare : string -> string -> Z)
    (s : Sys) (cs : list Category.t)
    (Hloaded : categories (app s) = Some cs)
    (Hsorted : categoriesSorted localeCompare s) :
  exists s',
    fillCategories localeCompare s = Some s'
    /\ categories (app s') = Some cs
    /\ pending s' = pending s ++ countRequests cs.
Proof.
  unfold categoriesSorted in Hsorted. rewrite Hloaded in Hsorted.
  eexists. split; [exact (fillCategories_eq _ _ _ Hloaded) |].
  rewrite (Array_sort_sorted_id (compareTitle localeCompare) cs Hsorted).
  split; reflexivity.
Qed.

Lemma rebuild_keeps_sorted_list_witness :
  exists s',
    fillCategories codeUnitCompare
      (upd (set_categories (Some [home; home'; work])) desktop) = Some s'
    /\ categories (app s') = Some [home; home'; work].
Proof.
  assert (Hs : categoriesSorted codeUnitCompare
                 (upd (set_categories (Some [home; home'; work])) desktop)).
  { unfold categoriesSorted. cbn.
    repeat (constructor; [| repeat (constructor; [cbv; discriminate |]); constructor]).
    constructor. }
  destruct (rebuild_keeps_sorted_list codeUnitCompare
              (upd (set_categories (Some [home; home'; work])) desktop)
              [home; home'; work] eq_refl Hs) as (s' & H1 & H2 & _).
  exists s'. split; [exact H1 | exact H2].
Defined.

(** ** Answers out of order *)

(** The task list shown is that of the refresh answered last, not of the one
    issued last: when two task searches wait and the later one is answered
    first, the answer to the earlier one overwrites it, while the filters
    are those the user set. *)
Theorem last_answered_refresh_wins (localeCompare : string -> string -> Z)
    (t : Sys) (i j : nat) (q1 q2 : Request) (l1 l2 : list Task.t)
    (Hfirst : pending t !! i = Some (Single q1 SetTasks))
    (Hsecond : pending t !! j = Some (Single q2 SetTasks))
    (Horder : (i < j)%nat) :
  exists t1 t2,
    deliver localeCompare j 0 (Next (VTasks l2)) t = Some t1
    /\ tasks (app t1) = Some l2
    /\ deliver localeCompare i 0 (Next (VTasks l1)) t1 = Some t2
    /\ tasks (app t2) = Some l1
    /\ refreshRequest (app t2) = refreshRequest (app t).
Proof.
  eexists _, _. split; [by rewrite (deliver_single _ _ _ _ _ _ Hsecond) |].
  split; [reflexivity |]. split.
  - rewrite (deliver_single localeCompare _ i q1 SetTasks); [reflexivity |].
    cbn. by rewrite list_lookup_delete_lt.
  - split; reflexivity.
Qed.

(** The search text goes from "m" to "milk"; the answer for "milk" comes
    first, the answer for "m" after it. *)
Lemma last_answered_refresh_wins_witness :
  exists t1 t2,
    deliver codeUnitCompare 1 0 (Next (VTasks [milk None]))
            (onSearchTasks "milk" (onSearchTasks "m" desktop)) = Some t1
    /\ deliver codeUnitCompare 0 0 (Next (VTasks [milk None; milk (Some work)])) t1
       = Some t2
    /\ tasks (app t2) = Some [milk None; milk (Some work)]
    /\ searchTaskText (app t2) = "milk".
Proof.
  destruct (last_answered_refresh_wins codeUnitCompare
              (onSearchTasks "milk" (onSearchTasks "m" desktop)) 0 1
              (searchTasks None "m" None None) (searchTasks None "milk" None None)
              [milk None; milk (Some work)] [milk None] eq_refl eq_refl)
    as (t1 & t2 & H1 & _ & H2 & H3 & H4); [lia |].
  exists t1, t2. split; [exact H1 |]. split; [exact H2 |]. split; [exact H3 |].
  cbn in H4. by injection H4 as _ H4 _ _.
Defined.

(** A count that was in flight puts a deleted category back: the callback of
    a count writes the index without looking at it, so when the delete of a
    category is confirmed while a count for that category waits, wherever in
    the waiting list, before the delete or after it, the entry removed at
    the confirmation is there again once the count answers. *)
Theorem late_count_restores_deleted_entry (localeCompare : string -> string -> Z)
    (t : Sys) (i j : nat) (q q' : Request) (cat : Category.t) (n : Z)
    (Hdelete : pending t !! i = Some (Single q AfterDeleteCategory))
    (Hcount : pending t !! j = Some (Single q' (SetCount cat))) :
  exists t1 t2,
    deliver localeCompare i 0 (Next (VCategory cat)) t = Some t1
    /\ categoryMap (app t1) !! Category.addr cat = None
    /\ pending t1 !! (if decide (j < i)%nat then j else pred j) =
         Some (Single q' (SetCount cat))
    /\ deliver localeCompare (if decide (j < i)%nat then j else pred j) 0
               (Next (VCount n)) t1 = Some t2
    /\ categoryMap (app t2) !! Category.addr cat = Some n.
Proof.
  assert (Hij : j ≠ i) by (intros ->; congruence).
  assert (Hwaits : (delete i (pending t)
                    ++ [Single (searchCategories (searchCategoryText (app t)))
                               AfterSearchCategory]
                    ++ [Single (searchTasks None (searchTaskText (app t))
                                            (statusFilter (app t))
                                            (priorityFilter (app t))) SetTasks])
                   !! (if decide (j < i)%nat then j else pred j)
                   = Some (Single q' (SetCount cat))).
  { apply lookup_app_l_Some. destruct (decide (j < i)%nat) as [Hlt | Hge].
    - by rewrite list_lookup_delete_lt.
    - destruct j as [| j']; [lia |]. cbn [pred].
      rewrite list_lookup_delete_ge by lia. exact Hcount. }
  eexists _, _. split; [by rewrite (deliver_single _ _ _ _ _ _ Hdelete) |].
  split; [apply lookup_delete_eq |].
  assert (Hp : forall k,
             pending (updateTasks
                        (onSearchCategory
                           (searchCategoryText
                              (app (categoryMap_delete cat
                                      (upd (set_selectedCategory None) (finish i t)))))
                           (categoryMap_delete cat
                              (upd (set_selectedCategory None) (finish i t))))) !! k =
             (delete i (pending t)
              ++ [Single (searchCategories (searchCategoryText (app t)))
                         AfterSearchCategory]
              ++ [Single (searchTasks None (searchTaskText (app t))
                                      (statusFilter (app t))
                                      (priorityFilter (app t))) SetTasks]) !! k).
  { intros k. cbn. by rewrite <- app_assoc. }
  split; [by rewrite Hp |]. split.
  - rewrite (deliver_single localeCompare _ _ q' (SetCount cat)); [reflexivity |].
    by rewrite Hp.
  - apply lookup_insert_eq.
Qed.

(** A rebuild has asked for the count of Work and the count still waits;
    Work, which counts 3 in the index, is deleted and the delete is
    confirmed; then the count answers 2. *)
Lemma late_count_restores_deleted_entry_witness :
  exists t t1 t2,
    t = onDeleteCategory work
          (mkSys (app (categoryMap_set work 3 desktop))
                 (countRequests [work]))
    /\ pending t =
         [Single (getUncompletedCountInCategory (Some work)) (SetCount work);
          Single (deleteCategory 1) AfterDeleteCategory]
    /\ deliver codeUnitCompare 1 0 (Next (VCategory work)) t = Some t1
    /\ categoryMap (app t1) !! Category.addr work = None
    /\ deliver codeUnitCompare 0 0 (Next (VCount 2)) t1 = Some t2
    /\ categoryMap (app t2) !! Category.addr work = Some 2.
Proof.
  destruct (late_count_restores_deleted_entry codeUnitCompare
              (onDeleteCategory work
                 (mkSys (app (categoryMap_set work 3 desktop))
                        (countRequests [work])))
              1 0 (deleteCategory 1) (getUncompletedCountInCategory (Some work))
              work 2 eq_refl eq_refl)
    as (t1 & t2 & H1 & H2 & _ & H3 & H4).
  eexists _, t1, t2. split; [reflexivity |]. split; [reflexivity |].
  split; [exact H1 |]. split; [exact H2 |]. split; [exact H3 | exact H4].
Defined.

(** ** Raising callbacks and [ngOnInit] *)

(** The component lives on after a callback that raises.  Every answer to a
    waiting request whose value has the type of the callback's parameter is
    an event of the component's life.  If the list is undefined and the
    callback is that of [onAddCategory] or of [onUpdateTask], the callback
    raises in [fillCategories]: the loop of [step] refuses the answer, and
    the component goes on with the index emptied, every other field as it
    was, nothing issued and that subscription over.  In every other case the
    callback returns. *)
Theorem life_goes_on_after_raise (localeCompare : string -> string -> Z)
    (c : Live) (i : nat) (q : Request) (sub : Subscriber) (v : Value)
    (Hwaits : pending (core c) !! i = Some (Single q sub))
    (Htyped : accepts sub v = true) :
  exists c',
    liveStep localeCompare (Core (Answer i 0 (Next v))) c = Some c'
    /\ (rebuilds sub = true /\ categories (app (core c)) = None ->
        step localeCompare (Answer i 0 (Next v)) (core c) = None
        /\ app (core c') = set_categoryMap ∅ (app (core c))
        /\ pending (core c') = delete i (pending (core c)))
    /\ (rebuilds sub = false \/ is_Some (categories (app (core c))) ->
        step localeCompare (Answer i 0 (Next v)) (core c) = Some (core c')).
Proof.
  cbn [liveStep step raised]. rewrite Hwaits.
  rewrite (deliver_single _ _ _ _ _ _ Hwaits).
  assert (Hnone : forall t, categories (app t) = None ->
                            fillCategories localeCompare t = None).
  { intros t Ht. unfold fillCategories. cbn. by rewrite Ht. }
  assert (Hsome : forall t, is_Some (categories (app t)) ->
                            is_Some (fillCategories localeCompare t)).
  { intros t [cs Ht]. by rewrite (fillCategories_eq _ _ _ Ht). }
  destruct (categories (app (core c))) as [cs |] eqn:Hcs.
  - assert (Hloaded : is_Some (categories (app (finish i (core c)))))
      by (cbn; by rewrite Hcs).
    destruct (Hsome _ Hloaded) as [s1 Hs1].
    assert (Hrun : is_Some (run localeCompare sub v (finish i (core c)))).
    { destruct sub, v; try discriminate Htyped; cbn [run]; rewrite ?Hs1; try done;
        apply Hsome; done. }
    destruct Hrun as [s' Hs']. rewrite Hs'. eexists. split; [reflexivity |].
    split; [intros [_ [=]] | reflexivity].
  - destruct (rebuilds sub) eqn:Hsub.
    + assert (Hrun : run localeCompare sub v (finish i (core c)) = None).
      { destruct sub; try discriminate Hsub; cbn [run];
          rewrite (Hnone (finish i (core c)) Hcs); reflexivity. }
      rewrite Hrun. eexists. split; [reflexivity |]. split.
      * intros _. repeat split.
      * intros [[=] | [? [=]]].
    + assert (Hrun : is_Some (run localeCompare sub v (finish i (core c)))).
      { destruct sub, v; try discriminate Htyped; try discriminate Hsub;
          cbn [run]; try done; apply Hsome; done. }
      destruct Hrun as [s' Hs']. rewrite Hs'. eexists. split; [reflexivity |].
      split; [intros [[=] _] | reflexivity].
Qed.

(** A task is updated on the constructed component while Work counts 3; the
    answer raises, the index is emptied, and the life goes on: the search
    text can still be changed. *)
Lemma life_goes_on_after_raise_witness :
  exists c c' c'',
    c = mkLive (onUpdateTask (milk (Some work))
                  (categoryMap_set work 3 (constructor false false))) true true
    /\ liveStep codeUnitCompare (Core (Answer 0 0 (Next VUnit))) c = Some c'
    /\ step codeUnitCompare (Answer 0 0 (Next VUnit)) (core c) = None
    /\ categoryMap (app (core c')) = ∅
    /\ pending (core c') = []
    /\ liveStep codeUnitCompare (Core (SearchTasks "milk")) c' = Some c''
    /\ pending (core c'') = [Single (searchTasks None "milk" None None) SetTasks].
Proof.
  destruct (life_goes_on_after_raise codeUnitCompare
              (mkLive (onUpdateTask (milk (Some work))
                         (categoryMap_set work 3 (constructor false false))) true true)
              0 (updateTask (milk (Some work))) AfterUpdateTask VUnit eq_refl eq_refl)
    as (c' & H1 & H2 & _).
  destruct (H2 (conj eq_refl eq_refl)) as (H3 & H4 & H5).
  assert (Hc' : c' = mkLive (fillCategoriesRaised
                               (finish 0
                                  (onUpdateTask (milk (Some work))
                                     (categoryMap_set work 3 (constructor false false)))))
                            true true)
    by (cbn in H1; by injection H1 as <-).
  subst c'.
  eexists _, _, _. split; [reflexivity |]. split; [exact H1 |].
  split; [exact H3 |]. split; [by rewrite H4 |]. split; [exact H5 |].
  split; reflexivity.
Defined.

(** [ngOnInit] makes its two subscriptions and rebuilds the index from the
    list the component holds.  If the list is undefined, as on the
    constructed component when the facade has not answered yet, the rebuild
    raises: the index is emptied and "All" is not selected, so no task search
    and no statistics query is issued.  If the list is defined, the index is
    emptied, the list sorted, one count per category issued, then "All" is
    selected: the task search and the statistics zip for the null category
    are issued. *)
Theorem ngOnInit_selects_all_after_rebuild (localeCompare : string -> string -> Z)
    (s : Sys) :
  prioritiesWait (ngOnInit localeCompare s) = true
  /\ categoriesWait (ngOnInit localeCompare s) = true
  /\ categoryMap (app (core (ngOnInit localeCompare s))) = ∅
  /\ (categories (app s) = None ->
      app (core (ngOnInit localeCompare s)) = set_categoryMap ∅ (app s)
      /\ pending (core (ngOnInit localeCompare s)) = pending s)
  /\ (forall cs,
        categories (app s) = Some cs ->
        selectedCategory (app (core (ngOnInit localeCompare s))) = None
        /\ categories (app (core (ngOnInit localeCompare s))) =
             Some (Array_sort (compareTitle localeCompare) cs)
        /\ pending (core (ngOnInit localeCompare s)) =
             pending s
             ++ countRequests (Array_sort (compareTitle localeCompare) cs)
             ++ [Single (searchTasks None (searchTaskText (app s)) (statusFilter (app s))
                                     (priorityFilter (app s))) SetTasks;
                 Zip (statSources None None None None None)]).
Proof.
  split; [reflexivity |]. split; [reflexivity |].
  unfold ngOnInit. cbn [core].
  destruct (categories (app s)) as [cs |] eqn:Hcs.
  - rewrite (fillCategories_eq _ _ _ Hcs). unfold onSelectCategory.
    rewrite updateTasksAndStat_eq. cbn.
    split; [by destruct (isMobile (app s)) |].
    split; [discriminate |].
    intros cs' [= <-]. rewrite <- app_assoc.
    by destruct (isMobile (app s)).
  - assert (Hf : fillCategories localeCompare s = None).
    { unfold fillCategories. cbn. by rewrite Hcs. }
    rewrite Hf. split; [reflexivity |]. split; [by intros _ | discriminate].
Qed.

(** On the constructed component nothing is issued by [ngOnInit]; on the
    desktop component, whose list is loaded, "All" is selected after the
    rebuild. *)
Lemma ngOnInit_selects_all_after_rebuild_witness :
  core (ngOnInit codeUnitCompare (constructor false false)) = constructor false false
  /\ pending (core (ngOnInit codeUnitCompare desktop)) =
       countRequests [home; home'; work]
       ++ [Single (searchTasks None "" None None) SetTasks;
           Zip (statSources None None None None None)].
Proof.
  destruct (ngOnInit_selects_all_after_rebuild codeUnitCompare (constructor false false))
    as (_ & _ & _ & Hraise & _).
  destruct (ngOnInit_selects_all_after_rebuild codeUnitCompare desktop)
    as (_ & _ & _ & _ & Hloaded).
  destruct (Hraise eq_refl) as [Ha Hp].
  destruct (Hloaded [work; home; home'] eq_refl) as (_ & _ & Hq).
  split; [| exact Hq].
  destruct (core (ngOnInit codeUnitCompare (constructor false false))) as [a p].
  cbn in Ha, Hp. by rewrite Ha, Hp.
Defined.
